(** * A shallow embedding of the VS Code replica (main.py)

    The development follows the layout of [main.py]: the string and path
    helpers of the Python runtime that the program calls, the operating
    system interface, the file type classifier, the content reader, the
    workspace scanner, the application state with its two event handlers
    and the three render functions.

    Python [str] values are modelled as [string]: a sequence of 8-bit
    characters holding the UTF-8 encoding of the text.  The order of
    [sorted] on [str] is the lexicographic order on code points, which on
    UTF-8 encoded text is the lexicographic order on bytes ([String.le]).
    Paths follow the POSIX flavour of [os.path] (separator [/]). *)

From Stdlib Require Import ZArith Ascii.
From Stdlib Require String.
From stdpp Require Import base option list sorting strings pretty gmap.

Set Warnings "-register-all".
Local Open Scope Z_scope.

(** ** Python string methods *)

Module Str.

Fixpoint map (f : ascii → ascii) (s : string) : string :=
  match s with
  | EmptyString => EmptyString
  | String a s' => String (f a) (map f s')
  end.

(** [str.lower] and [str.upper] on the ASCII letters; every other byte is
    left as it is.  For the table lookups of the program this agrees with
    the Unicode case mapping of Python: the keys of [type_map] are ASCII,
    and the only non-ASCII character whose lowercase is an ASCII letter
    is the Kelvin sign, which maps to [k], a letter in none of the keys. *)
Definition lower_char (a : ascii) : ascii :=
  let n := N_of_ascii a in
  if ((65 <=? n) && (n <=? 90))%N then ascii_of_N (n + 32) else a.

Definition upper_char (a : ascii) : ascii :=
  let n := N_of_ascii a in
  if ((97 <=? n) && (n <=? 122))%N then ascii_of_N (n - 32) else a.

Definition lower : string → string := map lower_char.
Definition upper : string → string := map upper_char.

Definition len (s : string) : Z := Z.of_nat (String.length s).

Fixpoint take (n : nat) (s : string) : string :=
  match n, s with
  | S n', String a s' => String a (take n' s')
  | _, _ => EmptyString
  end.

Fixpoint drop (n : nat) (s : string) : string :=
  match n, s with
  | S n', String _ s' => drop n' s'
  | _, _ => s
  end.

(** [s[i:j]] for indices [0 <= i] and [0 <= j]. *)
Definition slice (s : string) (i j : Z) : string :=
  take (Z.to_nat (j - i)) (drop (Z.to_nat i) s).

(** [s[:j]] and [s[i:]]. *)
Definition upto (s : string) (j : Z) : string := take (Z.to_nat j) s.
Definition from (s : string) (i : Z) : string := drop (Z.to_nat i) s.

(** [s.rfind(c)] for a one-character [c]: the highest index holding [c],
    or [-1]. *)
Fixpoint rfind_from (c : ascii) (s : string) (i last : Z) : Z :=
  match s with
  | EmptyString => last
  | String a s' => rfind_from c s' (i + 1) (if decide (a = c) then i else last)
  end.

Definition rfind (c : ascii) (s : string) : Z := rfind_from c s 0 (-1).

Definition startswith (c : ascii) (s : string) : bool :=
  match s with
  | String a _ => bool_decide (a = c)
  | EmptyString => false
  end.

Fixpoint endswith (c : ascii) (s : string) : bool :=
  match s with
  | EmptyString => false
  | String a EmptyString => bool_decide (a = c)
  | String _ s' => endswith c s'
  end.

(** [s.replace(c, r)] for a one-character [c]. *)
Fixpoint replace (c : ascii) (r : string) (s : string) : string :=
  match s with
  | EmptyString => EmptyString
  | String a s' => (if decide (a = c) then r else String a "") +:+ replace c r s'
  end.

Fixpoint contains (c : ascii) (s : string) : bool :=
  match s with
  | EmptyString => false
  | String a s' => bool_decide (a = c) || contains c s'
  end.

End Str.

(** ** [os.path] (posixpath) *)

Module posixpath.

Definition sep : ascii := "/"%char.
Definition extsep : ascii := "."%char.

(** [os.path.join(a, b)]. *)
Definition join (a b : string) : string :=
  if Str.startswith sep b then b
  else if bool_decide (a = "") || Str.endswith sep a then a +:+ b
  else a +:+ String sep b.

(** [os.path.basename(p)]. *)
Definition basename (p : string) : string :=
  let i := Str.rfind sep p + 1 in
  Str.from p i.

(** The loop of [genericpath._splitext] that skips the leading dots of
    the file name; [n] bounds the number of iterations, which is at most
    [dotIndex - filenameIndex]. *)
Fixpoint splitext_loop (n : nat) (p : string) (filenameIndex dotIndex : Z)
  : string * string :=
  match n with
  | O => (p, "")
  | S n' =>
      if filenameIndex <? dotIndex then
        if bool_decide (Str.slice p filenameIndex (filenameIndex + 1) ≠ String extsep "")
        then (Str.upto p dotIndex, Str.from p dotIndex)
        else splitext_loop n' p (filenameIndex + 1) dotIndex
      else (p, "")
  end.

(** [os.path.splitext(p)]. *)
Definition splitext (p : string) : string * string :=
  let sepIndex := Str.rfind sep p in
  let dotIndex := Str.rfind extsep p in
  if sepIndex <? dotIndex then
    let filenameIndex := sepIndex + 1 in
    splitext_loop (Z.to_nat (dotIndex - filenameIndex)) p filenameIndex dotIndex
  else (p, "").

End posixpath.

(** ** The operating system interface

    The program reaches the file system through four calls.  A call that
    can raise returns an [outcome]; the program only ever uses [str(e)] of
    a caught exception, so an exception is modelled by its message. *)

Inductive outcome (A : Type) : Type :=
| Returns (a : A)
| Raises (msg : string).
Arguments Returns {A} a.
Arguments Raises {A} msg.

Class OS (W : Type) : Type := {
  (** [os.path.isdir(p)]: never raises on a [str]. *)
  isdir : W → string → bool;
  (** [os.listdir(p)]. *)
  listdir : W → string → outcome (list string);
  (** [with open(p, 'r', encoding='utf-8') as f: f.read()]. *)
  read_text : W → string → outcome string;
  (** [with open(p, 'w', encoding='utf-8') as f: f.write(text)]: the file
      system afterwards (also when the call raised) and the outcome. *)
  write_text : W → string → string → W * outcome unit;
}.

(** ** Data model *)

(** A node of the workspace tree: the dict with keys [name], [path],
    [type] and, for directories only, [children]. *)
Inductive FileNode : Type :=
  mkFileNode {
    name : string;
    path : string;
    type : string;
    children : option (list FileNode);
  }.

(** All nodes of a tree, in depth-first pre-order. *)
Fixpoint nodes (n : FileNode) : list FileNode :=
  n :: match children n with
       | Some l => flat_map nodes l
       | None => []
       end.

Definition is_directory (n : FileNode) : Prop := type n = "directory".

(** The debug toggle is off: the [if DEBUG:] prints of the source are dead
    code and are left out of the functions below. *)
Definition DEBUG : bool := false.

Definition FILE_ICONS : gmap string string :=
  list_to_map
    [ ("directory", "📁"); ("python", "🐍"); ("javascript", "📜");
      ("html", "🌐"); ("css", "🎨"); ("json", "📋"); ("markdown", "📝");
      ("text", "📄"); ("image", "🖼️"); ("unknown", "📎") ].

Definition type_map : gmap string string :=
  list_to_map
    [ (".py", "python"); (".js", "javascript"); (".html", "html");
      (".css", "css"); (".json", "json"); (".md", "markdown");
      (".txt", "text"); (".jpg", "image"); (".jpeg", "image");
      (".png", "image"); (".gif", "image"); (".svg", "image") ].

(** [d.get(k, dflt)]. *)
Definition dict_get {V} (d : gmap string V) (k : string) (dflt : V) : V :=
  default dflt (d !! k).

Section Program.
Context {W : Type} `{OS W}.

(** *** File type classifier *)

Definition get_file_type (w : W) (file_path : string) : string :=
  if isdir w file_path then "directory"
  else
    let extension := Str.lower (posixpath.splitext file_path).2 in
    dict_get type_map extension "unknown".

(** [FILE_ICONS["unknown"]] is a key of the dict; the innermost default
    is never used. *)
Definition get_file_icon (w : W) (file_path : string) : string :=
  let file_type := get_file_type w file_path in
  dict_get FILE_ICONS file_type (dict_get FILE_ICONS "unknown" "").

(** *** File content reader *)

Definition read_file_content (w : W) (file_path : string) : outcome string :=
  match read_text w file_path with
  | Returns text => Returns text
  | Raises e => Returns ("Error reading file: " +:+ e)
  end.

(** *** Workspace scanner

    The result pairs the node with the lines printed on the way.  The
    recursion of the source has no bound of its own; [fuel] bounds its
    depth and [None] means that the bound was reached.

    Of the calls inside the [try] block only [os.listdir] can raise:
    [os.path.isdir], [os.path.join], [sorted] and [get_file_type] do not
    raise on strings, and the recursive call catches what is raised below
    it.  The handler prints one line and falls through to [return
    workspace], which then holds the children appended so far. *)

Definition scan_result : Type := FileNode * list string.

(** The [for item in sorted_items] loop; [scan] is the recursive call. *)
Fixpoint scan_items (w : W) (scan : string → option scan_result)
    (workspace_dir : string) (sorted_items : list string)
  : option (list FileNode * list string) :=
  match sorted_items with
  | [] => Some ([], [])
  | item :: rest =>
      let item_path := posixpath.join workspace_dir item in
      let item_type :=
        if isdir w item_path then "directory" else get_file_type w item_path in
      '(child, out) ←
        (if isdir w item_path then scan item_path
         else Some ({| name := item; path := item_path; type := item_type;
                       children := None |}, []));
      '(more, out') ← scan_items w scan workspace_dir rest;
      Some (child :: more, out ++ out')
  end.

(** [sorted(l)] on a list of [str]. *)
Definition sorted (l : list string) : list string := merge_sort String.le l.

Fixpoint scan_workspace (fuel : nat) (w : W) (workspace_dir : string)
  : option scan_result :=
  match fuel with
  | O => None
  | S fuel' =>
      let workspace children :=
        {| name := posixpath.basename workspace_dir; path := workspace_dir;
           type := "directory"; children := Some children |} in
      match listdir w workspace_dir with
      | Raises e =>
          Some (workspace [], ["Error scanning workspace: " +:+ e])
      | Returns items =>
          let dirs :=
            sorted (filter (λ item, isdir w (posixpath.join workspace_dir item) = true) items) in
          let files :=
            sorted (filter (λ item, isdir w (posixpath.join workspace_dir item) ≠ true) items) in
          let sorted_items := dirs ++ files in
          '(children, out) ←
            scan_items w (scan_workspace fuel' w) workspace_dir sorted_items;
          Some (workspace children, out)
      end
  end.

End Program.

(** ** A reference file system

    An in-memory instance of the interface, used to run the program on
    concrete inputs.  Objects are keyed by the path string they are
    reached by. *)

Module MemFS.

Inductive fsobj : Type :=
| File (text : string)          (* a readable UTF-8 text file *)
| Binary (err : string)         (* a file whose read or decoding fails *)
| Dir (entries : list string)   (* a directory and its listing *)
| Locked (err : string).        (* a directory that cannot be listed *)

Record t : Type := mk {
  objects : gmap string fsobj;
  readonly : bool;
}.

Definition no_such (p : string) : string :=
  "[Errno 2] No such file or directory: '" +:+ p +:+ "'".

Definition mem_isdir (m : t) (p : string) : bool :=
  match objects m !! p with
  | Some (Dir _) | Some (Locked _) => true
  | _ => false
  end.

Definition mem_listdir (m : t) (p : string) : outcome (list string) :=
  match objects m !! p with
  | Some (Dir l) => Returns l
  | Some (Locked e) => Raises e
  | Some _ => Raises ("[Errno 20] Not a directory: '" +:+ p +:+ "'")
  | None => Raises (no_such p)
  end.

Definition mem_read (m : t) (p : string) : outcome string :=
  match objects m !! p with
  | Some (File s) => Returns s
  | Some (Binary e) => Raises e
  | Some _ => Raises ("[Errno 21] Is a directory: '" +:+ p +:+ "'")
  | None => Raises (no_such p)
  end.

Definition mem_write (m : t) (p text : string) : t * outcome unit :=
  if readonly m then (m, Raises ("[Errno 30] Read-only file system: '" +:+ p +:+ "'"))
  else match objects m !! p with
       | Some (Dir _) | Some (Locked _) =>
           (m, Raises ("[Errno 21] Is a directory: '" +:+ p +:+ "'"))
       | _ => (mk (<[p := File text]> (objects m)) (readonly m), Returns ())
       end.

#[global] Instance mem_os : OS t := {|
  isdir := mem_isdir;
  listdir := mem_listdir;
  read_text := mem_read;
  write_text := mem_write;
|}.

(** The workspace of the scenario: [README.md], [src/app.py], an
    unreadable directory [private] and two further files. *)
Definition demo : t :=
  mk (list_to_map
        [ ("/app/workspace", Dir ["notes.TXT"; "src"; "README.md"; "private"; "Zed.py"]);
          ("/app/workspace/README.md", File "# Demo");
          ("/app/workspace/notes.TXT", File "todo");
          ("/app/workspace/Zed.py", File "print(1)");
          ("/app/workspace/src", Dir ["app.py"]);
          ("/app/workspace/src/app.py", File "import os");
          ("/app/workspace/private", Locked "[Errno 13] Permission denied: '/app/workspace/private'");
          ("/app/workspace/logo.png", Binary "'utf-8' codec can't decode byte 0x89 in position 0: invalid start byte") ])
     false.

Definition demo_ro : t := mk (objects demo) true.

End MemFS.

(** ** Application state and event handlers *)

(** The three [State] containers of the module. *)
Record AppState : Type := mkAppState {
  workspace_state : FileNode;
  current_file_state : string;
  file_content_state : string;
}.

Definition set_current_file (st : AppState) (v : string) : AppState :=
  {| workspace_state := workspace_state st;
     current_file_state := v;
     file_content_state := file_content_state st |}.

Definition set_file_content (st : AppState) (v : string) : AppState :=
  {| workspace_state := workspace_state st;
     current_file_state := current_file_state st;
     file_content_state := v |}.

(** The result dict of a handler: [{"error": e}], [{"file": f, "type": t}]
    or [{"success": True, "file": f}]. *)
Inductive response : Type :=
| Error (error : string)
| Selected (file type : string)
| Updated (file : string).

(** An event payload: [None] or a dict; the fields that the user
    interface sends ([path], [content]) are strings. *)
Definition payload : Type := option (gmap string string).

Section Handlers.
Context {W : Type} `{OS W}.

(** Module initialisation: the workspace is scanned, [README.md] is the
    default file and its content is loaded.  [here] is the directory of
    [main.py]. *)
Definition init (fuel : nat) (w : W) (here : string) : option (AppState * list string) :=
  let workspace_dir := posixpath.join here "workspace" in
  '(tree, out) ← scan_workspace fuel w workspace_dir;
  let default_file_path := posixpath.join workspace_dir "README.md" in
  match read_file_content w default_file_path with
  | Returns default_content =>
      Some ({| workspace_state := tree;
               current_file_state := default_file_path;
               file_content_state := default_content |}, out)
  | Raises _ => None
  end.

Definition handle_select_file (w : W) (st : AppState) (event_data : payload)
  : W * AppState * outcome response :=
  match event_data with
  | None => (w, st, Returns (Error "No path in event data"))
  | Some d =>
      if decide (d = ∅) then (w, st, Returns (Error "No path in event data"))
      else
        match d !! "path" with
        | None => (w, st, Returns (Error "No path in event data"))
        | Some file_path =>
            if isdir w file_path then
              (w, st, Returns (Error "Cannot open directory"))
            else
              let st1 := set_current_file st file_path in
              match read_file_content w file_path with
              | Raises e => (w, st1, Raises e)
              | Returns content =>
                  let st2 := set_file_content st1 content in
                  (w, st2, Returns (Selected file_path (get_file_type w file_path)))
              end
        end
  end.

Definition handle_update_file_content (w : W) (st : AppState) (event_data : payload)
  : W * AppState * outcome response :=
  match event_data with
  | None => (w, st, Returns (Error "Missing path or content"))
  | Some d =>
      if decide (d = ∅) then (w, st, Returns (Error "Missing path or content"))
      else
        match d !! "path", d !! "content" with
        | Some file_path, Some new_content =>
            if isdir w file_path then
              (w, st, Returns (Error "Cannot update directory"))
            else
              match write_text w file_path new_content with
              | (w', Returns _) =>
                  (w', set_file_content st new_content, Returns (Updated file_path))
              | (w', Raises e) =>
                  (w', st, Returns (Error ("Error updating file: " +:+ e)))
              end
        | _, _ => (w, st, Returns (Error "Missing path or content"))
        end
  end.

End Handlers.


(** ** Views

    The render functions return nested dicts and lists of strings; [value]
    is that JSON-like data, a dict keeping its keys in source order. *)

Inductive value : Type :=
| VStr (s : string)
| VList (l : list value)
| VDict (d : list (string * value)).

(** Truth value of a [str]: the empty string is false. *)
Definition truthy (s : string) : bool := negb (bool_decide (s = "")).

Section Views.
Context {W : Type} `{OS W}.

(** [FileExplorer.render_file_tree]. *)
Fixpoint render_file_tree (w : W) (st : AppState) (level : Z) (node : FileNode)
  : value :=
  let is_directory := bool_decide (type node = "directory") in
  let node_path := path node in
  let item :=
    if is_directory then
      VDict [
        ("type", VStr "div");
        ("component_id", VStr ("dir-item-" +:+ Str.replace posixpath.sep "_" node_path));
        ("props", VDict [
          ("style", VDict [
            ("paddingLeft", VStr (pretty (level * 16) +:+ "px"));
            ("display", VStr "flex");
            ("alignItems", VStr "center");
            ("padding", VStr "4px 8px");
            ("borderRadius", VStr "4px");
            ("margin", VStr "2px 0") ]);
          ("children", VList [
            VDict [
              ("type", VStr "span");
              ("props", VDict [
                ("content", VStr (get_file_icon w node_path));
                ("style", VDict [
                  ("marginRight", VStr "8px");
                  ("fontSize", VStr "16px") ]) ]) ];
            VDict [
              ("type", VStr "span");
              ("props", VDict [
                ("content", VStr (name node));
                ("style", VDict [
                  ("fontSize", VStr "14px");
                  ("color", VStr "#cccccc") ]) ]) ] ]) ]) ]
    else
      let is_current_file := bool_decide (node_path = current_file_state st) in
      VDict [
        ("type", VStr "div");
        ("component_id", VStr ("file-item-" +:+ Str.replace posixpath.sep "_" node_path));
        ("component_type", VStr "file-item");
        ("props", VDict [
          ("style", VDict [
            ("paddingLeft", VStr (pretty (level * 16) +:+ "px"));
            ("display", VStr "flex");
            ("alignItems", VStr "center");
            ("padding", VStr "4px 8px");
            ("borderRadius", VStr "4px");
            ("margin", VStr "2px 0");
            ("cursor", VStr "pointer");
            ("backgroundColor", VStr (if is_current_file then "#37373d" else "transparent"));
            ("transition", VStr "background-color 0.2s ease");
            (":hover", VDict [
              ("backgroundColor", VStr "#2a2d2e") ]) ]);
          ("children", VList [
            VDict [
              ("type", VStr "span");
              ("props", VDict [
                ("content", VStr (get_file_icon w node_path));
                ("style", VDict [
                  ("marginRight", VStr "8px");
                  ("fontSize", VStr "16px");
                  ("color", VStr (if is_current_file then "#75beff" else "#cccccc")) ]) ]) ];
            VDict [
              ("type", VStr "button");
              ("component_type", VStr "file-button");
              ("props", VDict [
                ("label", VStr (name node));
                ("action", VStr "select_file");
                ("data", VDict [
                  ("path", VStr node_path) ]);
                ("style", VDict [
                  ("fontSize", VStr "14px");
                  ("color", VStr (if is_current_file then "#ffffff" else "#cccccc"));
                  ("fontWeight", VStr (if is_current_file then "bold" else "normal"));
                  ("background", VStr "none");
                  ("border", VStr "none");
                  ("padding", VStr "4px 8px");
                  ("margin", VStr "-4px -8px");
                  ("width", VStr "calc(100% + 16px)");
                  ("cursor", VStr "pointer");
                  ("textAlign", VStr "left");
                  ("transition", VStr "color 0.2s ease, text-decoration 0.2s ease");
                  (":hover", VDict [
                    ("color", VStr "#ffffff");
                    ("textDecoration", VStr "underline") ]) ]) ]) ] ]) ]) ]
  in
  match is_directory, children node with
  | true, Some node_children =>
      let children_container :=
        VDict [
          ("type", VStr "div");
          ("props", VDict [
            ("children",
             VList (map (render_file_tree w st (level + 1)) node_children)) ]) ] in
      VDict [
        ("type", VStr "div");
        ("props", VDict [
          ("children", VList [
            item;
            children_container ]) ]) ]
  | _, _ => item
  end.

(** [FileExplorer.render]. *)
Definition FileExplorer_render (w : W) (st : AppState) : value :=
  let workspace := workspace_state st in
  VDict [
    ("type", VStr "div");
    ("props", VDict [
      ("style", VDict [
        ("height", VStr "100%");
        ("overflow", VStr "auto");
        ("backgroundColor", VStr "#252526");
        ("color", VStr "#cccccc");
        ("padding", VStr "8px") ]);
      ("children", VList [
        VDict [
          ("type", VStr "h3");
          ("props", VDict [
            ("content", VStr "EXPLORER");
            ("style", VDict [
              ("fontSize", VStr "11px");
              ("fontWeight", VStr "bold");
              ("textTransform", VStr "uppercase");
              ("color", VStr "#bbbbbb");
              ("padding", VStr "8px 0");
              ("margin", VStr "0") ]) ]) ];
        render_file_tree w st 0 workspace ]) ]) ].
(** [Editor.render]. *)
Definition Editor_render (w : W) (st : AppState) : value :=
  let current_file := current_file_state st in
  let file_content := file_content_state st in
  if negb (truthy current_file) then
    VDict [
      ("type", VStr "div");
      ("props", VDict [
        ("style", VDict [
          ("height", VStr "100%");
          ("display", VStr "flex");
          ("flexDirection", VStr "column");
          ("justifyContent", VStr "center");
          ("alignItems", VStr "center");
          ("backgroundColor", VStr "#1e1e1e");
          ("color", VStr "#cccccc");
          ("padding", VStr "20px") ]);
        ("children", VList [
          VDict [
            ("type", VStr "h1");
            ("props", VDict [
              ("content", VStr "VS Code Replica");
              ("style", VDict [
                ("fontSize", VStr "32px");
                ("fontWeight", VStr "300");
                ("marginBottom", VStr "20px");
                ("color", VStr "#0098ff") ]) ]) ];
          VDict [
            ("type", VStr "p");
            ("props", VDict [
              ("content", VStr "Select a file from the explorer to start editing");
              ("style", VDict [
                ("fontSize", VStr "16px");
                ("color", VStr "#cccccc") ]) ]) ] ]) ]) ]
  else
    let file_ext :=
      Str.replace posixpath.extsep ""
        (Str.lower (posixpath.splitext current_file).2) in
    let mode :=
      if decide (file_ext = "py") then "python"
      else if decide (file_ext = "js") then "javascript"
      else if decide (file_ext = "html") then "htmlmixed"
      else if decide (file_ext = "css") then "css"
      else if decide (file_ext = "json") then "javascript"
      else if decide (file_ext = "md") then "markdown"
      else "text" in
    let header :=
      VDict [
        ("type", VStr "div");
        ("props", VDict [
          ("style", VDict [
            ("backgroundColor", VStr "#2d2d2d");
            ("padding", VStr "8px 16px");
            ("borderBottom", VStr "1px solid #1e1e1e");
            ("display", VStr "flex");
            ("alignItems", VStr "center") ]);
          ("children", VList [
            VDict [
              ("type", VStr "span");
              ("props", VDict [
                ("content", VStr (get_file_icon w current_file));
                ("style", VDict [
                  ("marginRight", VStr "8px");
                  ("fontSize", VStr "16px") ]) ]) ];
            VDict [
              ("type", VStr "span");
              ("props", VDict [
                ("content", VStr (posixpath.basename current_file));
                ("style", VDict [
                  ("fontSize", VStr "14px");
                  ("color", VStr "#cccccc") ]) ]) ] ]) ]) ] in
    let editor :=
      VDict [
        ("type", VStr "div");
        ("props", VDict [
          ("style", VDict [
            ("backgroundColor", VStr "#1e1e1e");
            ("color", VStr "#cccccc");
            ("fontFamily", VStr "monospace");
            ("padding", VStr "10px");
            ("overflow", VStr "auto");
            ("height", VStr "100%");
            ("display", VStr "flex");
            ("flexDirection", VStr "column") ]);
          ("children", VList [
            VDict [
              ("type", VStr "textarea");
              ("component_id", VStr "code-editor-textarea");
              ("props", VDict [
                ("content", VStr file_content);
                ("action", VStr "update_file_content");
                ("data", VDict [
                  ("path", VStr current_file) ]);
                ("style", VDict [
                  ("margin", VStr "0");
                  ("padding", VStr "10px");
                  ("fontSize", VStr "14px");
                  ("lineHeight", VStr "1.5");
                  ("backgroundColor", VStr "#1e1e1e");
                  ("color", VStr "#cccccc");
                  ("border", VStr "none");
                  ("outline", VStr "none");
                  ("resize", VStr "none");
                  ("width", VStr "100%");
                  ("height", VStr "100%");
                  ("fontFamily", VStr "'Consolas', 'Courier New', monospace");
                  ("tabSize", VStr "4");
                  ("whiteSpace", VStr "pre");
                  ("overflowWrap", VStr "normal");
                  ("overflowX", VStr "auto") ]) ]) ] ]) ]) ] in
    VDict [
      ("type", VStr "div");
      ("props", VDict [
        ("style", VDict [
          ("height", VStr "100%");
          ("display", VStr "flex");
          ("flexDirection", VStr "column");
          ("backgroundColor", VStr "#1e1e1e") ]);
        ("children", VList [
          header;
          VDict [
            ("type", VStr "div");
            ("props", VDict [
              ("style", VDict [
                ("flex", VStr "1");
                ("overflow", VStr "hidden") ]);
              ("children", VList [
                editor ]) ]) ] ]) ]) ].
(** [StatusBar.render]. *)
Definition StatusBar_render (w : W) (st : AppState) : value :=
  let current_file := current_file_state st in
  let file_type :=
    if truthy current_file then get_file_type w current_file else "none" in
  VDict [
    ("type", VStr "div");
    ("props", VDict [
      ("style", VDict [
        ("height", VStr "22px");
        ("backgroundColor", VStr "#007acc");
        ("color", VStr "white");
        ("display", VStr "flex");
        ("alignItems", VStr "center");
        ("padding", VStr "0 10px");
        ("fontSize", VStr "12px");
        ("justifyContent", VStr "space-between") ]);
      ("children", VList [
        VDict [
          ("type", VStr "div");
          ("props", VDict [
            ("style", VDict [
              ("display", VStr "flex");
              ("alignItems", VStr "center") ]);
            ("children", VList [
              VDict [
                ("type", VStr "span");
                ("props", VDict [
                  ("content", VStr "VS Code Replica");
                  ("style", VDict [
                    ("marginRight", VStr "15px") ]) ]) ] ]) ]) ];
        VDict [
          ("type", VStr "div");
          ("props", VDict [
            ("style", VDict [
              ("display", VStr "flex");
              ("alignItems", VStr "center") ]);
            ("children", VList [
              VDict [
                ("type", VStr "span");
                ("props", VDict [
                  ("content", VStr (if truthy current_file then Str.upper file_type else ""));
                  ("style", VDict [
                    ("marginLeft", VStr "15px") ]) ]) ] ]) ]) ] ]) ]) ].
(** The main layout [home]. *)
Definition home (w : W) (st : AppState) : value :=
  VDict [
    ("type", VStr "div");
    ("props", VDict [
      ("style", VDict [
        ("display", VStr "flex");
        ("flexDirection", VStr "column");
        ("height", VStr "100vh");
        ("backgroundColor", VStr "#1e1e1e");
        ("color", VStr "#cccccc");
        ("fontFamily", VStr "'Segoe UI', Tahoma, Geneva, Verdana, sans-serif") ]);
      ("children", VList [
        VDict [
          ("type", VStr "div");
          ("props", VDict [
            ("style", VDict [
              ("display", VStr "flex");
              ("flex", VStr "1");
              ("overflow", VStr "hidden") ]);
            ("children", VList [
              VDict [
                ("type", VStr "div");
                ("props", VDict [
                  ("style", VDict [
                    ("width", VStr "250px");
                    ("borderRight", VStr "1px solid #333333");
                    ("overflow", VStr "hidden");
                    ("display", VStr "flex");
                    ("flexDirection", VStr "column") ]);
                  ("children", VList [
                    FileExplorer_render w st ]) ]) ];
              VDict [
                ("type", VStr "div");
                ("props", VDict [
                  ("style", VDict [
                    ("flex", VStr "1");
                    ("overflow", VStr "hidden") ]);
                  ("children", VList [
                    Editor_render w st ]) ]) ] ]) ]) ];
        StatusBar_render w st ]) ]) ].
End Views.

(** ** The operations of the program

    Everything the program can be asked to do once it is loaded: the
    helper functions, the scanner, the render functions and the two event
    handlers.  [run] performs one operation on the file system and the
    application state. *)

Inductive operation : Type :=
| OpGetFileType (file_path : string)
| OpGetFileIcon (file_path : string)
| OpReadFileContent (file_path : string)
| OpScanWorkspace (fuel : nat) (workspace_dir : string)
| OpRenderExplorer
| OpRenderEditor
| OpRenderStatusBar
| OpHome
| OpSelectFile (event_data : payload)
| OpUpdateFileContent (event_data : payload).

Inductive result : Type :=
| RStr (s : outcome string)
| RScan (r : option scan_result)
| RView (v : value)
| RResponse (r : outcome response).

Section Operations.
Context {W : Type} `{OS W}.

Definition run (w : W) (st : AppState) (op : operation) : W * AppState * result :=
  match op with
  | OpGetFileType p => (w, st, RStr (Returns (get_file_type w p)))
  | OpGetFileIcon p => (w, st, RStr (Returns (get_file_icon w p)))
  | OpReadFileContent p => (w, st, RStr (read_file_content w p))
  | OpScanWorkspace fuel d => (w, st, RScan (scan_workspace fuel w d))
  | OpRenderExplorer => (w, st, RView (FileExplorer_render w st))
  | OpRenderEditor => (w, st, RView (Editor_render w st))
  | OpRenderStatusBar => (w, st, RView (StatusBar_render w st))
  | OpHome => (w, st, RView (home w st))
  | OpSelectFile ev =>
      let '(w', st', r) := handle_select_file w st ev in (w', st', RResponse r)
  | OpUpdateFileContent ev =>
      let '(w', st', r) := handle_update_file_content w st ev in (w', st', RResponse r)
  end.

(** A session: operations performed one after the other. *)
Fixpoint run_all (w : W) (st : AppState) (ops : list operation) : W * AppState :=
  match ops with
  | [] => (w, st)
  | op :: ops' => let '(w', st', _) := run w st op in run_all w' st' ops'
  end.

Definition is_select (op : operation) : bool :=
  match op with OpSelectFile _ => true | _ => false end.

Definition is_handler (op : operation) : bool :=
  match op with OpSelectFile _ | OpUpdateFileContent _ => true | _ => false end.

End Operations.

(** ** Auxiliary notions used by the statements *)

(** A character map that neither creates nor destroys [c]. *)
Definition keeps (f : ascii → ascii) (c : ascii) : Prop := ∀ a, f a = c ↔ a = c.

(** The field [k] of a payload, if the payload is there and has it. *)
Definition payload_field (k : string) (event_data : payload) : option string :=
  d ← event_data; d !! k.

(** A directory entry name as [os.listdir] gives it: not empty and
    without a separator. *)
Definition plain_name (item : string) : Prop :=
  item ≠ "" ∧ Str.contains posixpath.sep item = false.

(** [inside q s]: the path [s] is [q] or lies below [q]. *)
Definition inside (q s : string) : Prop :=
  s = q ∨ ∃ r, s = q +:+ String posixpath.sep r.

(** The directory part that [join d] puts before a plain name. *)
Definition base (d : string) : string :=
  if bool_decide (d = "") || Str.endswith posixpath.sep d then d
  else d +:+ String posixpath.sep "".

(** The directory node that [scan_workspace] builds for [workspace_dir]. *)
Definition dir_node (workspace_dir : string) (l : list FileNode) : FileNode :=
  {| name := posixpath.basename workspace_dir; path := workspace_dir;
     type := "directory"; children := Some l |}.

(** What a node prescribes for the order of its children: directories
    first, then files, each group in increasing order of names. *)
Definition dirs_then_files (l : list FileNode) : Prop :=
  ∃ ds fs,
    l = ds ++ fs
    ∧ Forall is_directory ds
    ∧ Forall (λ n, ¬ is_directory n) fs
    ∧ StronglySorted String.le (name <$> ds)
    ∧ StronglySorted String.le (name <$> fs).

Definition ordered (n : FileNode) : Prop :=
  ∀ l, children n = Some l → dirs_then_files l.

(** A node has a [children] field exactly when it is a directory. *)
Definition has_children_iff_directory (n : FileNode) : Prop :=
  is_Some (children n) ↔ is_directory n.

(** The path of a child is its parent's path joined with its name. *)
Definition child_paths_joined (n : FileNode) : Prop :=
  ∀ l c, children n = Some l → c ∈ l → path c = posixpath.join (path n) (name c).

Section ScannerNotions.
Context {W : Type} `{OS W}.

(** Listings hold distinct plain names. *)
Definition well_listed (w : W) : Prop :=
  ∀ d items, listdir w d = Returns items → NoDup items ∧ Forall plain_name items.

(** [rank] decreases from a directory to each of its subdirectories:
    the directory structure has no cycle. *)
Definition descends (w : W) (rank : string → nat) : Prop :=
  ∀ d items item,
    listdir w d = Returns items → item ∈ items →
    isdir w (posixpath.join d item) = true →
    (rank (posixpath.join d item) < rank d)%nat.

(** The file node that the loop of [scan_workspace] builds for [item]. *)
Definition file_node (w : W) (workspace_dir item : string) : FileNode :=
  {| name := item; path := posixpath.join workspace_dir item;
     type := get_file_type w (posixpath.join workspace_dir item);
     children := None |}.

(** [sorted_items] of [scan_workspace]. *)
Definition listed_items (w : W) (workspace_dir : string) (items : list string)
  : list string :=
  sorted (filter (λ item, isdir w (posixpath.join workspace_dir item) = true) items)
  ++ sorted (filter (λ item, isdir w (posixpath.join workspace_dir item) ≠ true) items).



(** What the loop builds for an item, as far as its shape goes. *)
Definition built (w : W) (d item : string) (co : scan_result) : Prop :=
  if isdir w (posixpath.join d item)
  then ∃ l, co.1 = dir_node (posixpath.join d item) l
  else co = (file_node w d item, []).


(** The invariant of the recursion for the paths of the tree. *)
Definition tree_paths (w : W) (d : string) (t : FileNode) (out : list string) : Prop :=
  (∃ l, t = dir_node d l)
  ∧ Forall has_children_iff_directory (nodes t)
  ∧ Forall child_paths_joined (nodes t)
  ∧ NoDup (path <$> nodes t)
  ∧ Forall (λ n, path n = d
                 ∨ ∃ item, plain_name item ∧ inside (posixpath.join d item) (path n))
           (nodes t).

(** What the subtree built for [item] contributes. *)
Definition covered (w : W) (d item : string) (co : scan_result) : Prop :=
  Forall has_children_iff_directory (nodes co.1)
  ∧ Forall child_paths_joined (nodes co.1)
  ∧ NoDup (path <$> nodes co.1)
  ∧ Forall (λ n, inside (posixpath.join d item) (path n)) (nodes co.1).

End ScannerNotions.

(** The application state after start-up on the reference file system,
    [main.py] living in [/app]. *)
Definition demo_state : AppState :=
  match init 8 MemFS.demo "/app" with
  | Some (st, _) => st
  | None => {| workspace_state := mkFileNode "" "" "" None;
               current_file_state := ""; file_content_state := "" |}
  end.

(** A rank for the reference file system: the workspace root is above
    its subdirectories. *)
Definition demo_rank (p : string) : nat :=
  if bool_decide (p = "/app/workspace") then 1%nat else 0%nat.

(** ** Further notions

    Notions used by the properties of the second part. *)

(** [dots n]: the string of [n] dots. *)
Fixpoint dots (n : nat) : string :=
  match n with
  | O => ""
  | S n' => String posixpath.extsep (dots n')
  end.

(** The ten kinds of [FILE_ICONS]. *)
Definition file_kinds : list string :=
  ["directory"; "python"; "javascript"; "html"; "css"; "json"; "markdown";
   "text"; "image"; "unknown"].

Section ScannerNotionsMore.
Context {W : Type} `{OS W}.

(** How the type of a node of the tree scanned from [d] relates to the
    file system: the node is a directory node, for the root or for a path
    that is a directory, or a file node carrying the kind of its path. *)
Definition classified (w : W) (d : string) (n : FileNode) : Prop :=
  (type n = "directory" ∧ (path n = d ∨ isdir w (path n) = true))
  ∨ (isdir w (path n) = false ∧ type n = get_file_type w (path n)).

(** Two file systems that differ at most in the order in which
    [os.listdir] enumerates the entries of a directory. *)
Definition same_up_to_listing_order (w1 w2 : W) : Prop :=
  (∀ p, isdir w1 p = isdir w2 p)
  ∧ (∀ p, match listdir w1 p, listdir w2 p with
          | Returns l1, Returns l2 => l1 ≡ₚ l2
          | Raises e1, Raises e2 => e1 = e2
          | _, _ => False
          end).

End ScannerNotionsMore.

Definition is_update (op : operation) : bool :=
  match op with OpUpdateFileContent _ => true | _ => false end.

(** ** Reading a view *)

(** All values stored under the key [k] in the dicts of a view, in
    document order. *)
Fixpoint values_at (k : string) (v : value) : list value :=
  match v with
  | VStr _ => []
  | VList l => flat_map (values_at k) l
  | VDict d =>
      flat_map (λ kv, (if String.eqb kv.1 k then [kv.2] else []) ++ values_at k kv.2) d
  end.

(** Whether a value is the background colour of the highlighted item of
    the explorer. *)
Definition highlighted (v : value) : bool :=
  match v with
  | VStr s => String.eqb s "#37373d"
  | _ => false
  end.

(** The files of a tree: its non-directory nodes, in pre-order. *)
Definition file_nodes (t : FileNode) : list FileNode :=
  filter (λ n, ¬ is_directory n) (nodes t).

(** The reference file system with the entries of the workspace
    directory enumerated in another order. *)
Definition demo_reordered : MemFS.t :=
  MemFS.mk
    (<[ "/app/workspace" :=
          MemFS.Dir ["Zed.py"; "private"; "README.md"; "src"; "notes.TXT"] ]>
       (MemFS.objects MemFS.demo))
    false.

(** * Properties *)

(** ** Path and string helpers on concrete inputs *)

Example splitext_ex1 : posixpath.splitext "/a/b.c/readme.MD" = ("/a/b.c/readme", ".MD").
Proof. reflexivity. Qed.
Example splitext_ex2 : posixpath.splitext "/a/b.c/.bashrc" = ("/a/b.c/.bashrc", "").
Proof. reflexivity. Qed.
Example splitext_ex3 : posixpath.splitext "x/..a.tar.gz" = ("x/..a.tar", ".gz").
Proof. reflexivity. Qed.
Example join_ex1 : posixpath.join "/ws" "src" = "/ws/src".
Proof. reflexivity. Qed.
Example join_ex2 : posixpath.join "/ws/" "src" = "/ws/src".
Proof. reflexivity. Qed.
Example basename_ex1 : posixpath.basename "/ws/src" = "src".
Proof. reflexivity. Qed.
Example lower_ex1 : Str.lower ".JPeG" = ".jpeg".
Proof. reflexivity. Qed.

(** ** Strings *)

Section StrLemmas.

Lemma app_cons (a : ascii) (s1 s2 : string) :
  String a s1 +:+ s2 = String a (s1 +:+ s2).
Proof. done. Qed.

Lemma app_nil_l (s : string) : "" +:+ s = s.
Proof. done. Qed.

Lemma app_nil_r (s : string) : s +:+ "" = s.
Proof. induction s as [|a s IH]; [done|]. by rewrite app_cons, IH. Qed.

Lemma app_assoc (s1 s2 s3 : string) : (s1 +:+ s2) +:+ s3 = s1 +:+ s2 +:+ s3.
Proof. induction s1 as [|a s1 IH]; [done|]. by rewrite !app_cons, IH. Qed.

Lemma length_app (s1 s2 : string) :
  String.length (s1 +:+ s2) = (String.length s1 + String.length s2)%nat.
Proof. induction s1 as [|a s1 IH]; [done|]. rewrite app_cons. cbn. by f_equal. Qed.

Lemma map_app f (s1 s2 : string) :
  Str.map f (s1 +:+ s2) = Str.map f s1 +:+ Str.map f s2.
Proof.
  induction s1 as [|a s1 IH]; [done|]. rewrite app_cons. cbn.
  by rewrite app_cons, IH.
Qed.

Lemma take_map f n (s : string) : Str.take n (Str.map f s) = Str.map f (Str.take n s).
Proof.
  revert n; induction s as [|a s IH]; intros [|n]; cbn; try done.
  by rewrite IH.
Qed.

Lemma drop_map f n (s : string) : Str.drop n (Str.map f s) = Str.map f (Str.drop n s).
Proof. revert n; induction s as [|a s IH]; intros [|n]; cbn; try done. Qed.

Lemma take_drop (n : nat) (s : string) : Str.take n s +:+ Str.drop n s = s.
Proof.
  revert n; induction s as [|a s IH]; intros [|n]; cbn; try done.
  by rewrite app_cons, IH.
Qed.

Lemma rfind_from_map f c (s : string) (i last : Z) :
  keeps f c → Str.rfind_from c (Str.map f s) i last = Str.rfind_from c s i last.
Proof.
  intros Hk. revert i last. induction s as [|a s IH]; intros i last; cbn; [done|].
  rewrite IH. f_equal.
  destruct (Hk a) as [H1 H2].
  destruct (decide (f a = c)), (decide (a = c)); naive_solver.
Qed.

Lemma map_single f c (s : string) :
  keeps f c → Str.map f s = String c "" ↔ s = String c "".
Proof.
  intros Hk. destruct s as [|a [|b s]]; cbn; split; intros E;
    simplify_eq; try done; f_equal.
  - by apply (Hk a).
  - by apply (Hk c).
Qed.

Lemma lower_char_keeps_sep : keeps Str.lower_char posixpath.sep.
Proof.
  intros [[] [] [] [] [] [] [] []]; vm_compute; split; intros E; by inversion E.
Qed.

Lemma lower_char_keeps_extsep : keeps Str.lower_char posixpath.extsep.
Proof.
  intros [[] [] [] [] [] [] [] []]; vm_compute; split; intros E; by inversion E.
Qed.

End StrLemmas.

(** [os.path.splitext] commutes with a character map that keeps the two
    separators. *)
Lemma splitext_loop_map f n p i d :
  keeps f posixpath.extsep →
  posixpath.splitext_loop n (Str.map f p) i d =
  (Str.map f (posixpath.splitext_loop n p i d).1,
   Str.map f (posixpath.splitext_loop n p i d).2).
Proof.
  intros Hk. revert i. induction n as [|n IH]; intros i; cbn; [done|].
  destruct (i <? d); [|done].
  unfold Str.slice, Str.upto, Str.from.
  rewrite drop_map, !take_map.
  destruct (bool_decide_reflect
              (Str.map f (Str.take (Z.to_nat (i + 1 - i)) (Str.drop (Z.to_nat i) p))
               ≠ String posixpath.extsep "")) as [E|E];
    destruct (bool_decide_reflect
              (Str.take (Z.to_nat (i + 1 - i)) (Str.drop (Z.to_nat i) p)
               ≠ String posixpath.extsep "")) as [E'|E']; cbn.
  - by rewrite drop_map.
  - exfalso. apply E. apply dec_stable in E'. by apply map_single.
  - exfalso. apply E'. apply dec_stable in E. by apply map_single in E.
  - apply IH.
Qed.

Lemma splitext_map f p :
  keeps f posixpath.sep → keeps f posixpath.extsep →
  posixpath.splitext (Str.map f p) =
  (Str.map f (posixpath.splitext p).1, Str.map f (posixpath.splitext p).2).
Proof.
  intros Hs He. unfold posixpath.splitext, Str.rfind.
  rewrite !rfind_from_map by done.
  destruct (_ <? _); [|done].
  by apply splitext_loop_map.
Qed.

Lemma splitext_lower p :
  (posixpath.splitext (Str.lower p)).2 = Str.lower (posixpath.splitext p).2.
Proof.
  unfold Str.lower.
  by rewrite splitext_map by auto using lower_char_keeps_sep, lower_char_keeps_extsep.
Qed.

Lemma lower_idemp s : Str.lower (Str.lower s) = Str.lower s.
Proof.
  unfold Str.lower. induction s as [|a s IH]; [done|]. cbn. rewrite IH. f_equal.
  revert a. by intros [[] [] [] [] [] [] [] []].
Qed.

(** ** The file type classifier *)

Lemma type_map_miss (extension : string) :
  extension ∉ [".py"; ".js"; ".html"; ".css"; ".json"; ".md"; ".txt";
               ".jpg"; ".jpeg"; ".png"; ".gif"; ".svg"] →
  dict_get type_map extension "unknown" = "unknown".
Proof.
  intros Hnot. unfold dict_get, type_map.
  by rewrite (not_elem_of_list_to_map_1 _ extension).
Qed.

Section Classifier.
Context {W : Type} `{OS W}.

Lemma get_file_type_not_dir (w : W) (file_path : string) :
  isdir w file_path = false →
  get_file_type w file_path =
  dict_get type_map (Str.lower (posixpath.splitext file_path).2) "unknown".
Proof. intros Hd. unfold get_file_type. by rewrite Hd. Qed.

Lemma get_file_type_dir (w : W) (file_path : string) :
  isdir w file_path = true → get_file_type w file_path = "directory".
Proof. intros Hd. unfold get_file_type. by rewrite Hd. Qed.

(** A file is never classified as a directory. *)
Lemma get_file_type_file (w : W) (file_path : string) :
  isdir w file_path = false → get_file_type w file_path ≠ "directory".
Proof.
  intros Hd. rewrite get_file_type_not_dir by done.
  unfold dict_get, type_map.
  destruct (list_to_map _ !! _) as [kind|] eqn:E; [|done].
  apply elem_of_list_to_map_2 in E.
  repeat (apply elem_of_cons in E as [E|E]; [by simplify_eq|]).
  by apply elem_of_nil in E.
Qed.

(** C7: for a path that is not a directory, [get_file_type] is the
    lookup of the lowercased extension in the fixed table, [unknown] for
    an extension outside the table, and two paths whose extensions (or
    whose whole text) differ only in letter case get the same kind.
    Being a function, the classifier is total and deterministic. *)
Theorem get_file_type_table (w : W) (file_path : string) :
  isdir w file_path = false →
  let extension := Str.lower (posixpath.splitext file_path).2 in
  (∀ ext kind,
     (ext, kind) ∈ [ (".py", "python"); (".js", "javascript"); (".html", "html");
                     (".css", "css"); (".json", "json"); (".md", "markdown");
                     (".txt", "text"); (".jpg", "image"); (".jpeg", "image");
                     (".png", "image"); (".gif", "image"); (".svg", "image") ] →
     extension = ext → get_file_type w file_path = kind)
  ∧ (extension ∉ [".py"; ".js"; ".html"; ".css"; ".json"; ".md"; ".txt";
                  ".jpg"; ".jpeg"; ".png"; ".gif"; ".svg"] →
     get_file_type w file_path = "unknown")
  ∧ (∀ other, isdir w other = false →
       Str.lower (posixpath.splitext other).2 = extension →
       get_file_type w other = get_file_type w file_path)
  ∧ (∀ other, isdir w other = false →
       Str.lower other = Str.lower file_path →
       get_file_type w other = get_file_type w file_path).
Proof.
  intros Hd extension. rewrite get_file_type_not_dir by done.
  fold extension. repeat split.
  - intros ext kind Hin ->.
    repeat (apply elem_of_cons in Hin as [Hin|Hin]; [by simplify_eq|]).
    by apply elem_of_nil in Hin.
  - apply type_map_miss.
  - intros other Ho He. rewrite get_file_type_not_dir by done. by rewrite He.
  - intros other Ho He. rewrite get_file_type_not_dir by done.
    subst extension. by rewrite <- !splitext_lower, He.
Qed.

End Classifier.

Lemma get_file_type_table_witness :
  get_file_type MemFS.demo "/app/workspace/README.MD" = "markdown"
  ∧ get_file_type MemFS.demo "/app/workspace/src/app.py" = "python"
  ∧ get_file_type MemFS.demo "/app/workspace/notes.TXT" = "text".
Proof.
  pose proof (get_file_type_table MemFS.demo "/app/workspace/README.MD" eq_refl) as (T1 & _).
  pose proof (get_file_type_table MemFS.demo "/app/workspace/src/app.py" eq_refl) as (T2 & _).
  pose proof (get_file_type_table MemFS.demo "/app/workspace/notes.TXT" eq_refl) as (T3 & _).
  split; [|split].
  - apply (T1 ".md"); [|reflexivity]. do 5 apply list_elem_of_further. apply list_elem_of_here.
  - apply (T2 ".py"); [|reflexivity]. apply list_elem_of_here.
  - apply (T3 ".txt"); [|reflexivity]. do 6 apply list_elem_of_further. apply list_elem_of_here.
Defined.

(** ** The content reader *)

Section Reader.
Context {W : Type} `{OS W}.

Lemma read_file_content_returns (w : W) (file_path : string) :
  ∃ content, read_file_content w file_path = Returns content.
Proof.
  unfold read_file_content. destruct (read_text w file_path); by eexists.
Qed.

(** C6: [read_file_content] returns the decoded text of the file, and
    when opening, reading or decoding raises it returns the error text
    as the content; it returns a string in every case and never raises. *)
Theorem read_file_content_total (w : W) (file_path : string) :
  (∀ text, read_text w file_path = Returns text →
     read_file_content w file_path = Returns text)
  ∧ (∀ e, read_text w file_path = Raises e →
     read_file_content w file_path = Returns ("Error reading file: " +:+ e))
  ∧ (∃ content, read_file_content w file_path = Returns content).
Proof.
  unfold read_file_content.
  split_and!.
  - by intros text ->.
  - by intros e ->.
  - destruct (read_text w file_path); by eexists.
Qed.

End Reader.

Lemma read_file_content_total_witness :
  read_file_content MemFS.demo "/app/workspace/README.md" = Returns "# Demo"
  ∧ read_file_content MemFS.demo "/app/workspace/gone.txt" =
    Returns "Error reading file: [Errno 2] No such file or directory: '/app/workspace/gone.txt'".
Proof.
  split.
  - apply (proj1 (read_file_content_total MemFS.demo "/app/workspace/README.md")). reflexivity.
  - apply (proj1 (proj2 (read_file_content_total MemFS.demo "/app/workspace/gone.txt"))
             (MemFS.no_such "/app/workspace/gone.txt")).
    reflexivity.
Defined.

(** ** The event handlers *)

Section HandlerProperties.
Context {W : Type} `{OS W}.



(** C9: selecting a path that is not a directory and cannot be read
    (it does not exist, or is not UTF-8 text) succeeds all the same: the
    path becomes the selection, the buffer holds the error text of the
    reader, and the result is the path with its file type. *)
Theorem handle_select_file_unreadable (w : W) (st : AppState)
    (d : gmap string string) (file_path e : string) :
  d !! "path" = Some file_path →
  isdir w file_path = false →
  read_text w file_path = Raises e →
  handle_select_file w st (Some d) =
  (w, {| workspace_state := workspace_state st;
         current_file_state := file_path;
         file_content_state := "Error reading file: " +:+ e |},
   Returns (Selected file_path (get_file_type w file_path))).
Proof.
  intros Hp Hd Hr. unfold handle_select_file.
  destruct (decide (d = ∅)) as [->|_]; [by rewrite lookup_empty in Hp|].
  rewrite Hp, Hd. unfold read_file_content. by rewrite Hr.
Qed.

(** C10: a successful update puts the new text into the one shared
    buffer and leaves the selection alone, whether or not the updated
    path is the selected one. *)
Theorem handle_update_file_content_any_path (w w' : W) (st : AppState)
    (d : gmap string string) (file_path new_content : string) (u : unit) :
  d !! "path" = Some file_path →
  d !! "content" = Some new_content →
  isdir w file_path = false →
  write_text w file_path new_content = (w', Returns u) →
  ∃ st',
    handle_update_file_content w st (Some d) = (w', st', Returns (Updated file_path))
    ∧ file_content_state st' = new_content
    ∧ current_file_state st' = current_file_state st.
Proof.
  intros Hp Hc Hd Hw. unfold handle_update_file_content.
  destruct (decide (d = ∅)) as [->|_]; [by rewrite lookup_empty in Hp|].
  rewrite Hp, Hc, Hd, Hw. by eexists.
Qed.

End HandlerProperties.

Example demo_state_selection :
  current_file_state demo_state = "/app/workspace/README.md"
  ∧ file_content_state demo_state = "# Demo".
Proof. by vm_compute. Qed.



Lemma handle_select_file_unreadable_witness :
  handle_select_file MemFS.demo demo_state (Some {[ "path" := "/app/workspace/gone.txt" ]}) =
  (MemFS.demo,
   {| workspace_state := workspace_state demo_state;
      current_file_state := "/app/workspace/gone.txt";
      file_content_state :=
        "Error reading file: [Errno 2] No such file or directory: '/app/workspace/gone.txt'" |},
   Returns (Selected "/app/workspace/gone.txt" "text")).
Proof.
  rewrite (handle_select_file_unreadable MemFS.demo demo_state
             {[ "path" := "/app/workspace/gone.txt" ]} "/app/workspace/gone.txt"
             (MemFS.no_such "/app/workspace/gone.txt")) by reflexivity.
  reflexivity.
Defined.

(** The selection is [README.md] and the update names [Zed.py]: the buffer
    shown for [README.md] now holds the text written to [Zed.py]. *)
Lemma handle_update_file_content_any_path_witness :
  ∃ st',
    handle_update_file_content MemFS.demo demo_state
      (Some (<[ "content" := "print(2)" ]> {[ "path" := "/app/workspace/Zed.py" ]})) =
    (MemFS.mk (<[ "/app/workspace/Zed.py" := MemFS.File "print(2)" ]> (MemFS.objects MemFS.demo)) false,
     st', Returns (Updated "/app/workspace/Zed.py"))
    ∧ file_content_state st' = "print(2)"
    ∧ current_file_state st' = current_file_state demo_state.
Proof.
  apply (handle_update_file_content_any_path MemFS.demo _ demo_state
           (<[ "content" := "print(2)" ]> {[ "path" := "/app/workspace/Zed.py" ]})
           "/app/workspace/Zed.py" "print(2)" ()); reflexivity.
Defined.

(** The scenario of the specification: select [README.md], update it
    with [X], select it again; the buffer then holds [X]. *)
Example select_update_select :
  let ev_select : payload := Some {[ "path" := "/app/workspace/README.md" ]} in
  let ev_update : payload :=
    Some (<[ "content" := "X" ]> {[ "path" := "/app/workspace/README.md" ]}) in
  let '(w1, st1, _) := handle_select_file MemFS.demo demo_state ev_select in
  let '(w2, st2, _) := handle_update_file_content w1 st1 ev_update in
  let '(w3, st3, r) := handle_select_file w2 st2 ev_select in
  file_content_state st3 = "X"
  ∧ current_file_state st3 = "/app/workspace/README.md"
  ∧ r = Returns (Selected "/app/workspace/README.md" "markdown").
Proof. by vm_compute. Qed.

(** ** The workspace scanner *)

Section ScannerProperties.
Context {W : Type} `{OS W}.
Implicit Types (w : W) (d item : string) (items : list string).

Lemma scan_workspace_S fuel w d :
  scan_workspace (S fuel) w d =
  match listdir w d with
  | Raises e => Some (dir_node d [], ["Error scanning workspace: " +:+ e])
  | Returns items =>
      '(l, out) ← scan_items w (scan_workspace fuel w) d (listed_items w d items);
      Some (dir_node d l, out)
  end.
Proof. reflexivity. Qed.

Lemma scan_items_cons w scan d item rest :
  scan_items w scan d (item :: rest) =
  '(child, out) ←
    (if isdir w (posixpath.join d item) then scan (posixpath.join d item)
     else Some (file_node w d item, []));
  '(more, out') ← scan_items w scan d rest;
  Some (child :: more, out ++ out').
Proof.
  cbn. unfold file_node. by destruct (isdir w (posixpath.join d item)).
Qed.

(** The loop pairs every item with the node built for it. *)
Lemma scan_items_Forall2 w scan d items l out :
  scan_items w scan d items = Some (l, out) →
  ∃ cos : list scan_result,
    l = cos.*1 ∧ out = concat cos.*2
    ∧ Forall2 (λ item co,
                 if isdir w (posixpath.join d item)
                 then scan (posixpath.join d item) = Some co
                 else co = (file_node w d item, [])) items cos.
Proof.
  revert l out. induction items as [|item rest IH]; intros l out Hs.
  - cbn in Hs. simplify_eq. by exists [].
  - rewrite scan_items_cons in Hs.
    destruct (if isdir w (posixpath.join d item) then _ else _)
      as [[child o]|] eqn:Hc; [|done].
    cbn in Hs.
    destruct (scan_items w scan d rest) as [[more o']|] eqn:Hr; [|done].
    cbn in Hs. simplify_eq.
    destruct (IH _ _ eq_refl) as (cos & -> & -> & HF).
    exists ((child, o) :: cos). repeat split; try done.
    constructor; [|done].
    destruct (isdir w (posixpath.join d item)); by simplify_eq.
Qed.

(** Induction on the recursion of the scanner. *)
Lemma scan_workspace_ind w (P : string → FileNode → list string → Prop) :
  (∀ d e, listdir w d = Raises e →
     P d (dir_node d []) ["Error scanning workspace: " +:+ e]) →
  (∀ d items (cos : list scan_result),
     listdir w d = Returns items →
     (∃ fuel, scan_workspace fuel w d = Some (dir_node d cos.*1, concat cos.*2)) →
     Forall2 (λ item co,
                if isdir w (posixpath.join d item)
                then P (posixpath.join d item) co.1 co.2
                else co = (file_node w d item, []))
             (listed_items w d items) cos →
     P d (dir_node d cos.*1) (concat cos.*2)) →
  ∀ fuel d t out, scan_workspace fuel w d = Some (t, out) → P d t out.
Proof.
  intros Hfail Hlist. induction fuel as [|fuel IH]; intros d t out Hs; [done|].
  pose proof Hs as Hs'. rewrite scan_workspace_S in Hs.
  destruct (listdir w d) as [items|e] eqn:Hl.
  - destruct (scan_items _ _ _ _) as [[l o]|] eqn:Hi; [|done].
    cbn in Hs. simplify_eq.
    apply scan_items_Forall2 in Hi as (cos & -> & -> & HF).
    apply (Hlist d items cos Hl); [by exists (S fuel)|].
    eapply Forall2_impl; [exact HF|].
    intros item [c o] Hco. cbn in Hco |- *.
    destruct (isdir w (posixpath.join d item)); [|done]. by apply IH.
  - simplify_eq. by apply Hfail.
Qed.

Lemma scan_workspace_shape w fuel d t out :
  scan_workspace fuel w d = Some (t, out) → ∃ l, t = dir_node d l.
Proof.
  destruct fuel as [|fuel]; [done|]. rewrite scan_workspace_S.
  destruct (listdir w d); [|intros; simplify_eq; by eexists].
  destruct (scan_items _ _ _ _) as [[l o]|]; [|done].
  cbn. intros; simplify_eq. by eexists.
Qed.

(** *** The listing that the loop runs over *)

Lemma listed_items_perm w d items : listed_items w d items ≡ₚ items.
Proof.
  unfold listed_items, sorted. rewrite !merge_sort_Permutation.
  apply filter_app_complement.
Qed.

Lemma listed_items_split w d items :
  ∃ dirs files,
    listed_items w d items = dirs ++ files
    ∧ StronglySorted String.le dirs ∧ StronglySorted String.le files
    ∧ Forall (λ item, isdir w (posixpath.join d item) = true ∧ item ∈ items) dirs
    ∧ Forall (λ item, isdir w (posixpath.join d item) = false ∧ item ∈ items) files.
Proof.
  eexists _, _. split; [reflexivity|].
  split; [apply StronglySorted_merge_sort; apply _|].
  split; [apply StronglySorted_merge_sort; apply _|].
  unfold sorted. split; apply Forall_forall; intros item;
    rewrite merge_sort_Permutation, list_elem_of_filter; intros [Hd Hin];
    (split; [|done]); [done|].
  by destruct (isdir w (posixpath.join d item)).
Qed.

End ScannerProperties.

(** ** Paths built by [os.path.join] from plain names *)

Section PathLemmas.
Implicit Types (c : ascii) (s d q item : string).

Lemma contains_app c s1 s2 :
  Str.contains c (s1 +:+ s2) = Str.contains c s1 || Str.contains c s2.
Proof.
  induction s1 as [|a s1 IH]; [done|]. rewrite app_cons. cbn.
  rewrite IH. by destruct (bool_decide (a = c)).
Qed.

Lemma startswith_contains c s : Str.contains c s = false → Str.startswith c s = false.
Proof. destruct s as [|a s]; cbn; [done|]. by intros [? _]%orb_false_iff. Qed.

Lemma endswith_contains c s : Str.contains c s = false → Str.endswith c s = false.
Proof.
  induction s as [|a s IH]; [done|]. cbn. intros [Ha Hs]%orb_false_iff.
  destruct s; [done|]. by apply IH.
Qed.

Lemma endswith_app c s1 s2 :
  s2 ≠ "" → Str.endswith c (s1 +:+ s2) = Str.endswith c s2.
Proof.
  intros Hne. induction s1 as [|a s1 IH]; [done|]. rewrite app_cons.
  cbn. rewrite IH. destruct (s1 +:+ s2) eqn:E; [|done].
  destruct s1, s2; by rewrite ?app_cons in E.
Qed.

Lemma rfind_from_app c s1 s2 i last :
  Str.rfind_from c (s1 +:+ s2) i last =
  Str.rfind_from c s2 (i + Str.len s1) (Str.rfind_from c s1 i last).
Proof.
  revert i last. induction s1 as [|a s1 IH]; intros i last.
  - cbn. f_equal. unfold Str.len. cbn. lia.
  - rewrite app_cons. cbn. rewrite IH. f_equal. unfold Str.len. cbn. lia.
Qed.

Lemma rfind_from_absent c s i last :
  Str.contains c s = false → Str.rfind_from c s i last = last.
Proof.
  revert i last. induction s as [|a s IH]; intros i last; cbn; [done|].
  intros [Ha Hs]%orb_false_iff. rewrite IH by done.
  apply bool_decide_eq_false in Ha. by destruct (decide (a = c)).
Qed.

Lemma rfind_from_endswith c s i last :
  Str.endswith c s = true → Str.rfind_from c s i last = i + Str.len s - 1.
Proof.
  revert i last. induction s as [|a s IH]; intros i last; [done|].
  cbn. destruct s as [|b s].
  - intros Ha%bool_decide_eq_true. cbn. destruct (decide (a = c)); [|done].
    unfold Str.len. cbn. lia.
  - intros Hs. rewrite IH by done. unfold Str.len. cbn [String.length]. lia.
Qed.

Lemma drop_app s1 s2 : Str.drop (String.length s1) (s1 +:+ s2) = s2.
Proof. induction s1 as [|a s1 IH]; [by destruct s2|]. by rewrite app_cons. Qed.

Lemma app_ne_self d s : s ≠ "" → d +:+ s ≠ d.
Proof.
  intros Hne E. apply (f_equal String.length) in E. rewrite length_app in E.
  destruct s; [done|]. cbn in E. lia.
Qed.

Lemma join_plain d item :
  plain_name item → posixpath.join d item = base d +:+ item.
Proof.
  intros [_ Hc]. unfold posixpath.join, base.
  rewrite (startswith_contains _ _ Hc).
  destruct (_ || _); [done|]. by rewrite app_assoc.
Qed.

Lemma basename_base d item :
  Str.contains posixpath.sep item = false →
  posixpath.basename (base d +:+ item) = item.
Proof.
  intros Hc. unfold posixpath.basename, Str.rfind, Str.from.
  rewrite rfind_from_app, (rfind_from_absent _ _ _ _ Hc).
  assert (Str.rfind_from posixpath.sep (base d) 0 (-1) + 1 = Str.len (base d)) as ->.
  { unfold base. destruct (bool_decide_reflect (d = "")) as [->|Hd]; [done|]. cbn.
    destruct (Str.endswith posixpath.sep d) eqn:He.
    - rewrite rfind_from_endswith by done. lia.
    - rewrite rfind_from_app. cbn. unfold Str.len.
      rewrite length_app. cbn. rewrite decide_True by done. lia. }
  unfold Str.len. rewrite Nat2Z.id. apply drop_app.
Qed.

Lemma basename_join d item :
  plain_name item → posixpath.basename (posixpath.join d item) = item.
Proof. intros Hp. rewrite join_plain by done. apply basename_base, Hp. Qed.

(** A path that [join] ends with a plain name is not empty and does not
    end with a separator; joining to it inserts one. *)
Lemma join_join d item item' :
  plain_name item → plain_name item' →
  posixpath.join (posixpath.join d item) item' =
  posixpath.join d item +:+ String posixpath.sep item'.
Proof.
  intros Hp [_ Hc']. rewrite (join_plain d) by done.
  unfold posixpath.join at 1. rewrite (startswith_contains _ _ Hc').
  destruct Hp as [Hne Hc].
  rewrite endswith_app, (endswith_contains _ _ Hc), orb_false_r by done.
  destruct (bool_decide_reflect (base d +:+ item = "")) as [E|_]; [|done].
  destruct (base d), item; by rewrite ?app_cons in E.
Qed.

Lemma inside_refl q : inside q q.
Proof. by left. Qed.

Lemma inside_join q item s :
  inside (q +:+ String posixpath.sep item) s → inside q s.
Proof.
  intros [->|[r ->]]; right.
  - by exists item.
  - exists (item +:+ String posixpath.sep r). by rewrite !app_assoc, !app_cons.
Qed.

Lemma inside_not_root d item s :
  plain_name item → inside (posixpath.join d item) s → s ≠ d.
Proof.
  intros Hp Hin. rewrite join_plain in Hin by done.
  destruct Hp as [Hne _]. unfold base in Hin.
  destruct (_ || _); destruct Hin as [->|[r ->]];
    rewrite ?app_assoc; apply app_ne_self;
    destruct item; by rewrite ?app_cons.
Qed.

Lemma plain_split item item' r r' :
  Str.contains posixpath.sep item = false →
  Str.contains posixpath.sep item' = false →
  item +:+ String posixpath.sep r = item' +:+ String posixpath.sep r' →
  item = item'.
Proof.
  revert item'. induction item as [|a item IH]; intros [|a' item'];
    rewrite ?app_nil_l, ?app_cons; cbn; intros Hc Hc' E; simplify_eq; try done.
  apply orb_false_iff in Hc as [_ Hc]. apply orb_false_iff in Hc' as [_ Hc'].
  f_equal. by eapply IH.
Qed.

Lemma plain_whole item item' r :
  Str.contains posixpath.sep item = false →
  item = item' +:+ String posixpath.sep r → False.
Proof.
  intros Hc ->. rewrite contains_app in Hc. cbn in Hc.
  rewrite bool_decide_eq_true_2, orb_true_r in Hc; done.
Qed.

Lemma inside_disjoint d item item' s :
  plain_name item → plain_name item' →
  inside (posixpath.join d item) s → inside (posixpath.join d item') s →
  item = item'.
Proof.
  intros Hp Hp'. rewrite !join_plain by done.
  destruct Hp as [_ Hc], Hp' as [_ Hc'].
  intros [->|[r ->]] [E|[r' E]]; rewrite ?app_assoc in E;
    apply (inj (String.app (base d))) in E.
  - done.
  - exfalso. by eapply (plain_whole item).
  - exfalso. symmetry in E. by eapply (plain_whole item').
  - by eapply plain_split.
Qed.

End PathLemmas.

(** ** Order of the scanned tree *)

Section ScannerOrder.
Context {W : Type} `{OS W}.
Implicit Types (w : W) (d item : string) (items : list string).

Lemma dir_group w d dirs (cos : list scan_result) :
  Forall2 (built w d) dirs cos →
  Forall (λ item, isdir w (posixpath.join d item) = true ∧ plain_name item) dirs →
  name <$> cos.*1 = dirs ∧ Forall is_directory cos.*1
  ∧ Forall (λ c, path c = posixpath.join d (name c)) cos.*1.
Proof.
  induction 1 as [|item [c o] dirs cos Hb _ IH]; intros HF; [done|].
  apply Forall_cons in HF as [[Hd Hp] HF]. destruct (IH HF) as (IHn & IHd & IHp).
  unfold built in Hb. rewrite Hd in Hb. destruct Hb as [l Hb]. cbn in Hb. subst c.
  cbn. rewrite IHn, basename_join by done. repeat split.
  - by constructor.
  - constructor; [|done]. cbn. by rewrite basename_join.
Qed.

Lemma file_group w d files (cos : list scan_result) :
  Forall2 (built w d) files cos →
  Forall (λ item, isdir w (posixpath.join d item) = false) files →
  name <$> cos.*1 = files ∧ Forall (λ n, ¬ is_directory n) cos.*1
  ∧ Forall (λ c, path c = posixpath.join d (name c)) cos.*1
  ∧ Forall (λ c, children c = None) cos.*1.
Proof.
  induction 1 as [|item [c o] files cos Hb _ IH]; intros HF; [done|].
  apply Forall_cons in HF as [Hd HF]. destruct (IH HF) as (IHn & IHd & IHp & IHc).
  unfold built in Hb. rewrite Hd in Hb. simplify_eq.
  cbn. repeat split; try constructor; try done.
  cbn. by apply get_file_type_file.
Qed.


Lemma file_node_ordered w d item : ordered (file_node w d item).
Proof. by intros l. Qed.





End ScannerOrder.

(** ** Shape and paths of the scanned tree *)

Section ScannerPaths.
Context {W : Type} `{OS W}.
Implicit Types (w : W) (d item : string) (items : list string).

Lemma file_node_not_directory w d item :
  isdir w (posixpath.join d item) = false → ¬ is_directory (file_node w d item).
Proof. intros Hd. by apply get_file_type_file. Qed.

Lemma tree_paths_covered w d item co :
  plain_name item →
  (if isdir w (posixpath.join d item)
   then tree_paths w (posixpath.join d item) co.1 co.2
   else co = (file_node w d item, [])) →
  covered w d item co.
Proof.
  intros Hp Hco. destruct (isdir w (posixpath.join d item)) eqn:Hd.
  - destruct Hco as (_ & H1 & H2 & H3 & H4). repeat split; try done.
    eapply Forall_impl; [exact H4|]. intros n [->|(item' & Hp' & Hin)].
    + apply inside_refl.
    + rewrite join_join in Hin by done. by eapply inside_join.
  - subst co. repeat split; cbn.
    + repeat constructor; [by intros [? ?]|].
      intros Hdir. exfalso. by eapply file_node_not_directory.
    + repeat constructor. by intros l c.
    + apply NoDup_singleton.
    + repeat constructor.
Qed.

Lemma covered_inside w d l (cos : list scan_result) n :
  Forall2 (covered w d) l cos →
  n ∈ flat_map nodes cos.*1 →
  ∃ item, item ∈ l ∧ inside (posixpath.join d item) (path n).
Proof.
  induction 1 as [|item [c o] l cos Hco _ IH]; cbn; [by intros ?%elem_of_nil|].
  intros [Hn|Hn]%elem_of_app.
  - exists item. split; [by left|]. destruct Hco as (_ & _ & _ & Hin).
    by eapply Forall_forall in Hin.
  - destruct (IH Hn) as (item' & ? & ?). exists item'. split; [by right|done].
Qed.

Lemma covered_NoDup w d l (cos : list scan_result) :
  Forall2 (covered w d) l cos →
  NoDup l → Forall plain_name l →
  NoDup (path <$> flat_map nodes cos.*1).
Proof.
  induction 1 as [|item [c o] l cos Hco HF IH]; cbn; [constructor|].
  intros [Hnotin Hnd]%NoDup_cons [Hp Hpl]%Forall_cons.
  rewrite fmap_app. apply NoDup_app. split; [apply Hco|]. split; [|by apply IH].
  intros s [n [-> Hn]]%list_elem_of_fmap [n' [E Hn']]%list_elem_of_fmap.
  destruct (covered_inside w d l cos n' HF Hn') as (item' & Hin' & Hins').
  destruct Hco as (_ & _ & _ & Hins). eapply Forall_forall in Hins; [|exact Hn].
  cbn in Hins. rewrite E in Hins.
  assert (item = item') as ->; [|done].
  eapply inside_disjoint; try done. by eapply Forall_forall in Hpl.
Qed.

Lemma covered_all w d l (cos : list scan_result) :
  Forall2 (covered w d) l cos →
  Forall has_children_iff_directory (flat_map nodes cos.*1)
  ∧ Forall child_paths_joined (flat_map nodes cos.*1).
Proof.
  induction 1 as [|item [c o] l cos Hco _ [IH1 IH2]]; cbn; [done|].
  rewrite !Forall_app. destruct Hco as (? & ? & _). done.
Qed.

Lemma children_joined w d items (cos : list scan_result) :
  Forall plain_name items →
  Forall2 (built w d) (listed_items w d items) cos →
  Forall (λ c, path c = posixpath.join d (name c)) cos.*1.
Proof.
  intros Hplain HF.
  destruct (listed_items_split w d items) as (dirs & files & E & _ & _ & Hd & Hf).
  rewrite E in HF. apply Forall2_app_inv_l in HF as (cos1 & cos2 & HF1 & HF2 & ->).
  destruct (dir_group w d dirs cos1 HF1) as (_ & _ & P1).
  { eapply Forall_impl; [exact Hd|]. intros item [? Hin]. split; [done|].
    by eapply Forall_forall in Hplain. }
  destruct (file_group w d files cos2 HF2) as (_ & _ & P2 & _).
  { eapply Forall_impl; [exact Hf|]. by intros item [? _]. }
  rewrite fmap_app. by apply Forall_app.
Qed.

Lemma Forall2_impl_Forall {A B} (R R' : A → B → Prop) (Q : A → Prop) l k :
  Forall2 R l k → Forall Q l → (∀ x y, Q x → R x y → R' x y) → Forall2 R' l k.
Proof.
  intros HF HQ Himp. induction HF as [|x y l k HR _ IH]; [constructor|].
  apply Forall_cons in HQ as [? ?]. constructor; auto.
Qed.

Lemma scan_workspace_tree_paths w fuel d t out :
  well_listed w →
  scan_workspace fuel w d = Some (t, out) → tree_paths w d t out.
Proof.
  intros Hw. revert fuel d t out. apply scan_workspace_ind.
  - intros d e Hl. split_and!; cbn.
    + by eexists.
    + constructor; [|constructor]. split; [done|]. by intros; eexists.
    + constructor; [|constructor]. intros l c [= <-]. by intros ?%elem_of_nil.
    + apply NoDup_singleton.
    + constructor; [by left|constructor].
  - intros d items cos Hl _ HF.
    destruct (Hw d items Hl) as [Hnd Hplain].
    assert (Forall plain_name (listed_items w d items)) as Hplain'.
    { by rewrite listed_items_perm. }
    assert (NoDup (listed_items w d items)) as Hnd'.
    { by rewrite listed_items_perm. }
    assert (Forall2 (covered w d) (listed_items w d items) cos) as HC.
    { eapply Forall2_impl_Forall; [exact HF|exact Hplain'|].
      intros item co Hp Hco. by apply tree_paths_covered. }
    assert (Forall2 (built w d) (listed_items w d items) cos) as HB.
    { eapply Forall2_impl; [exact HF|]. intros item co Hco. unfold built.
      cbn in Hco. destruct (isdir w (posixpath.join d item)); [|done].
      by destruct Hco as [? _]. }
    destruct (covered_all w d _ cos HC) as [A1 A2].
    split_and!; cbn.
    + by eexists.
    + constructor; [|done]. split; [done|]. by intros; eexists.
    + constructor; [|done]. intros l c [= <-] Hc. cbn.
      pose proof (children_joined w d items cos Hplain HB) as HJ.
      by eapply Forall_forall in HJ.
    + apply NoDup_cons. split; [|by eapply covered_NoDup].
      intros [n [E Hn]]%list_elem_of_fmap.
      destruct (covered_inside w d _ cos n HC Hn) as (item & Hin & Hins).
      eapply inside_not_root; [|exact Hins|done].
      by eapply Forall_forall in Hplain'.
    + constructor; [by left|]. apply Forall_forall. intros n Hn. right.
      destruct (covered_inside w d _ cos n HC Hn) as (item & Hin & Hins).
      exists item. split; [|done]. by eapply Forall_forall in Hplain'.
Qed.

(** C8: in the tree that the scanner returns, a node has a [children]
    field exactly when its type is [directory]; the path of a child is
    the path of its parent joined with the child's name, the root's path
    is the scanned directory, and no two nodes of the tree have the same
    path. *)
Theorem scan_workspace_tree_shape w fuel d t out :
  well_listed w →
  scan_workspace fuel w d = Some (t, out) →
  Forall has_children_iff_directory (nodes t)
  ∧ path t = d
  ∧ Forall child_paths_joined (nodes t)
  ∧ NoDup (path <$> nodes t).
Proof.
  intros Hw Hs.
  destruct (scan_workspace_tree_paths w fuel d t out Hw Hs)
    as ([l ->] & H1 & H2 & H3 & _).
  done.
Qed.

End ScannerPaths.

(** ** Unreadable directories and termination *)

Section ScannerTotal.
Context {W : Type} `{OS W}.
Implicit Types (w : W) (d item : string) (items : list string).

Lemma scan_items_mono w (scan scan' : string → option scan_result) d l r :
  (∀ q r, scan q = Some r → scan' q = Some r) →
  scan_items w scan d l = Some r → scan_items w scan' d l = Some r.
Proof.
  intros Hm. revert r. induction l as [|item rest IH]; intros r; [done|].
  rewrite !scan_items_cons.
  destruct (isdir w (posixpath.join d item)).
  - destruct (scan (posixpath.join d item)) as [[c o]|] eqn:E; [|done].
    rewrite (Hm _ _ E). cbn.
    destruct (scan_items w scan d rest) as [r'|]; [|done].
    by rewrite (IH _ eq_refl).
  - cbn. destruct (scan_items w scan d rest) as [r'|]; [|done].
    by rewrite (IH _ eq_refl).
Qed.

(** More fuel does not change a result. *)
Lemma scan_workspace_mono w fuel fuel' d r :
  (fuel ≤ fuel')%nat →
  scan_workspace fuel w d = Some r → scan_workspace fuel' w d = Some r.
Proof.
  revert fuel' d r. induction fuel as [|fuel IH]; intros fuel' d r Hle; [done|].
  destruct fuel' as [|fuel']; [lia|]. rewrite !scan_workspace_S.
  destruct (listdir w d) as [items|e]; [|done].
  destruct (scan_items w (scan_workspace fuel w) d _) as [[l o]|] eqn:E; [|done].
  intros Hr. erewrite scan_items_mono; [exact Hr| |exact E].
  intros q r'. apply IH. lia.
Qed.

Lemma scan_items_is_Some w (scan : string → option scan_result) d l :
  (∀ item, item ∈ l → isdir w (posixpath.join d item) = true →
     is_Some (scan (posixpath.join d item))) →
  is_Some (scan_items w scan d l).
Proof.
  induction l as [|item rest IH]; intros Hs; [by eexists|].
  rewrite scan_items_cons.
  destruct IH as [[more o'] Hr].
  { intros item' Hin. apply Hs. by right. }
  rewrite Hr. destruct (isdir w (posixpath.join d item)) eqn:Hd.
  - destruct (Hs item) as [[c o] Hc]; [by left|done|]. rewrite Hc. by eexists.
  - by eexists.
Qed.

(** On a directory structure without cycles the scanner returns. *)
Lemma scan_workspace_is_Some w (rank : string → nat) fuel d :
  descends w rank → (rank d < fuel)%nat → is_Some (scan_workspace fuel w d).
Proof.
  intros Hdesc. revert d. induction fuel as [|fuel IH]; intros d Hlt; [lia|].
  rewrite scan_workspace_S. destruct (listdir w d) as [items|e] eqn:Hl; [|by eexists].
  destruct (scan_items_is_Some w (scan_workspace fuel w) d (listed_items w d items))
    as [[l o] Hi].
  { intros item Hin Hd. apply IH.
    rewrite listed_items_perm in Hin.
    pose proof (Hdesc d items item Hl Hin Hd). lia. }
  rewrite Hi. by eexists.
Qed.

Lemma scan_items_paths w (scan : string → option scan_result) d l (cos : list scan_result) :
  Forall2 (built w d) l cos → path <$> cos.*1 = posixpath.join d <$> l.
Proof.
  induction 1 as [|item [c o] l cos Hb _ IH]; [done|].
  cbn. rewrite IH. f_equal. unfold built in Hb.
  destruct (isdir w (posixpath.join d item)).
  - destruct Hb as [? Hb]. cbn in Hb. by subst c.
  - by simplify_eq.
Qed.

(** C5: when listing a directory raises, the scanner prints one
    diagnostic and returns the directory node with the children
    collected so far, of which there are none; on a directory structure
    without cycles the scan of the whole tree returns a tree, whichever
    directories are unreadable, and every entry of a readable directory,
    unreadable subdirectories included, has its node among the children. *)
Theorem scan_workspace_survives w :
  (∀ fuel d e,
     listdir w d = Raises e →
     scan_workspace (S fuel) w d =
     Some (dir_node d [], ["Error scanning workspace: " +:+ e]))
  ∧ (∀ rank, descends w rank →
     ∀ d, ∃ t out, ∀ fuel, (rank d < fuel)%nat →
       scan_workspace fuel w d = Some (t, out))
  ∧ (∀ fuel d items t out,
       listdir w d = Returns items →
       scan_workspace fuel w d = Some (t, out) →
       ∃ l, children t = Some l
            ∧ path <$> l ≡ₚ posixpath.join d <$> items).
Proof.
  split_and!.
  - intros fuel d e Hl. rewrite scan_workspace_S. by rewrite Hl.
  - intros rank Hdesc d.
    destruct (scan_workspace_is_Some w rank (S (rank d)) d Hdesc) as [[t out] Hs]; [lia|].
    exists t, out. intros fuel Hlt. eapply scan_workspace_mono; [|exact Hs]. lia.
  - intros fuel d items t out Hl Hs.
    destruct fuel as [|fuel]; [done|]. rewrite scan_workspace_S, Hl in Hs.
    destruct (scan_items _ _ _ _) as [[l o]|] eqn:Hi; [|done].
    cbn in Hs. simplify_eq. exists l. split; [done|].
    apply scan_items_Forall2 in Hi as (cos & -> & -> & HF).
    rewrite (scan_items_paths w (scan_workspace fuel w) d (listed_items w d items)).
    + by rewrite listed_items_perm.
    + eapply Forall2_impl; [exact HF|]. intros item [c o] Hco. unfold built.
      cbn in Hco. destruct (isdir w (posixpath.join d item)); [|done].
      apply scan_workspace_shape in Hco as [l' ->]. by eexists.
Qed.

End ScannerTotal.

(** ** Who changes the application state *)

Section StateOwnership.
Context {W : Type} `{OS W}.
Implicit Types (w : W) (st : AppState) (op : operation).

Lemma handle_select_file_selection w st ev w' st' r :
  handle_select_file w st ev = (w', st', r) →
  w' = w
  ∧ (st' = st
     ∨ ∃ file_path, payload_field "path" ev = Some file_path
                    ∧ current_file_state st' = file_path).
Proof.
  unfold handle_select_file, payload_field.
  destruct ev as [d|]; cbn; [|intros; simplify_eq; auto].
  destruct (decide (d = ∅)); [intros; simplify_eq; auto|].
  destruct (d !! "path") as [file_path|]; [|intros; simplify_eq; auto].
  destruct (isdir w file_path); [intros; simplify_eq; auto|].
  destruct (read_file_content w file_path); intros; simplify_eq;
    (split; [done|]); right; by eexists.
Qed.

Lemma handle_update_file_content_selection w st ev w' st' r :
  handle_update_file_content w st ev = (w', st', r) →
  current_file_state st' = current_file_state st
  ∧ workspace_state st' = workspace_state st.
Proof.
  unfold handle_update_file_content.
  destruct ev as [d|]; [|intros; by simplify_eq].
  destruct (decide (d = ∅)); [intros; by simplify_eq|].
  destruct (d !! "path") as [file_path|], (d !! "content") as [new_content|];
    try (intros; by simplify_eq).
  destruct (isdir w file_path); [intros; by simplify_eq|].
  destruct (write_text w file_path new_content) as [w1 [u|e]]; intros; by simplify_eq.
Qed.

Lemma run_frame w st op w' st' r :
  run w st op = (w', st', r) →
  (is_handler op = false → w' = w ∧ st' = st)
  ∧ (is_select op = false → current_file_state st' = current_file_state st)
  ∧ (current_file_state st' = current_file_state st
     ∨ ∃ ev file_path, op = OpSelectFile ev
                       ∧ payload_field "path" ev = Some file_path
                       ∧ current_file_state st' = file_path).
Proof.
  destruct op; cbn; try (intros; simplify_eq; by auto).
  - destruct (handle_select_file w st event_data) as [[w1 st1] r1] eqn:E.
    intros; simplify_eq.
    apply handle_select_file_selection in E as [-> [->|(p & ? & ?)]];
      split_and!; try done; auto.
    right. by exists event_data, p.
  - destruct (handle_update_file_content w st event_data) as [[w1 st1] r1] eqn:E.
    intros; simplify_eq.
    apply handle_update_file_content_selection in E as [? ?].
    split_and!; [done|done|by left].
Qed.

(** C4: over any session, the selection changes only in a step of the
    select-file handler, and then to the path of that step's payload;
    a session without a select-file step leaves the selection as it was,
    and a session with neither handler leaves the selection, the content
    buffer and the file system as they were. *)
Theorem state_set_only_by_handlers w st (ops : list operation) w' st' :
  run_all w st ops = (w', st') →
  (forallb (λ op, negb (is_select op)) ops = true →
     current_file_state st' = current_file_state st)
  ∧ (forallb (λ op, negb (is_handler op)) ops = true →
     w' = w ∧ st' = st)
  ∧ (current_file_state st' = current_file_state st
     ∨ ∃ ev file_path, OpSelectFile ev ∈ ops
                       ∧ payload_field "path" ev = Some file_path
                       ∧ current_file_state st' = file_path).
Proof.
  revert w st. induction ops as [|op ops IH]; intros w st Hr; cbn in Hr.
  { simplify_eq. auto. }
  destruct (run w st op) as [[w1 st1] r] eqn:E.
  apply run_frame in E as (F1 & F2 & F3).
  destruct (IH _ _ Hr) as (I1 & I2 & I3). split_and!.
  - cbn. intros [Hop Hops]%andb_true_iff. rewrite I1, F2; try done.
    by apply negb_true_iff.
  - cbn. intros [Hop Hops]%andb_true_iff.
    destruct (I2 Hops) as [-> ->]. apply F1. by apply negb_true_iff.
  - destruct I3 as [I3|(ev & p & Hin & Hp & Hc)].
    + rewrite I3. destruct F3 as [F3|(ev & p & -> & Hp & Hc)]; [by left|].
      right. exists ev, p. split_and!; try done. by left.
    + right. exists ev, p. split_and!; try done. by right.
Qed.

End StateOwnership.

(** ** The reference file system *)

Lemma demo_listdir d items :
  listdir MemFS.demo d = Returns items →
  (d = "/app/workspace"
   ∧ items = ["notes.TXT"; "src"; "README.md"; "private"; "Zed.py"])
  ∨ (d = "/app/workspace/src" ∧ items = ["app.py"]).
Proof.
  cbn. unfold MemFS.mem_listdir.
  destruct (MemFS.objects MemFS.demo !! d) as [o|] eqn:E; [|done].
  apply elem_of_list_to_map_2 in E.
  repeat (apply elem_of_cons in E as [E|E]; [simplify_eq; intros; simplify_eq; auto|]).
  by apply elem_of_nil in E.
Qed.

Lemma demo_well_listed : well_listed MemFS.demo.
Proof.
  intros d items [[-> ->]|[-> ->]]%demo_listdir; (split; [compute_done|]);
    repeat constructor; done.
Qed.

Lemma demo_descends : descends MemFS.demo demo_rank.
Proof.
  intros d items item [[-> ->]|[-> ->]]%demo_listdir Hin Hd;
    repeat (apply elem_of_cons in Hin as [->|Hin]; [by (vm_compute; lia) || done|]);
    by apply elem_of_nil in Hin.
Qed.

Example demo_scan :
  ∃ t out,
    scan_workspace 2 MemFS.demo "/app/workspace" = Some (t, out)
    ∧ name <$> default [] (children t) = ["private"; "src"; "README.md"; "Zed.py"; "notes.TXT"]
    ∧ type <$> default [] (children t) = ["directory"; "directory"; "markdown"; "python"; "text"]
    ∧ out = ["Error scanning workspace: [Errno 13] Permission denied: '/app/workspace/private'"].
Proof. eexists _, _. split; [by vm_compute|]. by vm_compute. Qed.


Lemma scan_workspace_tree_shape_witness :
  ∃ t out,
    scan_workspace 2 MemFS.demo "/app/workspace" = Some (t, out)
    ∧ Forall has_children_iff_directory (nodes t)
    ∧ path t = "/app/workspace"
    ∧ Forall child_paths_joined (nodes t)
    ∧ NoDup (path <$> nodes t).
Proof.
  destruct (scan_workspace 2 MemFS.demo "/app/workspace") as [[t out]|] eqn:E;
    [|by vm_compute in E].
  exists t, out. split; [done|].
  exact (scan_workspace_tree_shape MemFS.demo 2 "/app/workspace" t out demo_well_listed E).
Defined.

Lemma scan_workspace_survives_witness :
  scan_workspace 1 MemFS.demo "/app/workspace/private" =
    Some (dir_node "/app/workspace/private" [],
          ["Error scanning workspace: [Errno 13] Permission denied: '/app/workspace/private'"])
  ∧ (∃ t out, ∀ fuel, (1 < fuel)%nat →
       scan_workspace fuel MemFS.demo "/app/workspace" = Some (t, out)).
Proof.
  destruct (scan_workspace_survives MemFS.demo) as (Hfail & Htotal & _).
  split.
  - apply (Hfail 0%nat "/app/workspace/private"). reflexivity.
  - exact (Htotal demo_rank demo_descends "/app/workspace").
Defined.

Lemma state_set_only_by_handlers_witness :
  run_all MemFS.demo demo_state
    [OpRenderExplorer; OpScanWorkspace 2 "/app/workspace"; OpRenderEditor;
     OpReadFileContent "/app/workspace/Zed.py"; OpGetFileIcon "/app/workspace/src";
     OpRenderStatusBar; OpHome] = (MemFS.demo, demo_state).
Proof.
  destruct (run_all MemFS.demo demo_state _) as [w' st'] eqn:Hr.
  destruct (state_set_only_by_handlers MemFS.demo demo_state _ w' st' Hr)
    as (_ & Hframe & _).
  destruct Hframe as [-> ->]; reflexivity.
Defined.

(** * Further properties *)

(** ** More on [rfind] and [splitext] *)

Section SplitextLemmas.
Implicit Types (c : ascii) (s d name : string).

Lemma rfind_from_bounds c s i last :
  Str.contains c s = true →
  i ≤ Str.rfind_from c s i last < i + Str.len s.
Proof.
  revert i last. induction s as [|a s IH]; intros i last; [done|].
  cbn [Str.contains Str.rfind_from]. unfold Str.len. cbn [String.length].
  destruct (Str.contains c s) eqn:Hs.
  - intros _. specialize (IH (i + 1) (if decide (a = c) then i else last) eq_refl).
    unfold Str.len in IH. lia.
  - rewrite orb_false_r. intros Ha%bool_decide_eq_true.
    rewrite rfind_from_absent by done. rewrite decide_True by done. lia.
Qed.

Lemma rfind_from_shift c s i last :
  Str.contains c s = true → Str.rfind_from c s i last = i + Str.rfind c s.
Proof.
  unfold Str.rfind. generalize (-1). revert i last.
  induction s as [|a s IH]; intros i last z; [done|].
  cbn [Str.contains Str.rfind_from].
  destruct (Str.contains c s) eqn:Hs.
  - intros _. rewrite (IH (i + 1) _ 0), (IH (0 + 1) _ 0) by done. lia.
  - rewrite orb_false_r. intros Ha%bool_decide_eq_true.
    rewrite !rfind_from_absent by done. rewrite !decide_True by done. lia.
Qed.

Lemma rfind_absent c s : Str.contains c s = false → Str.rfind c s = -1.
Proof. apply rfind_from_absent. Qed.

Lemma rfind_from_before_end c c' s i last :
  c ≠ c' → Str.endswith c s = true → last < i + Str.len s - 1 →
  Str.rfind_from c' s i last < i + Str.len s - 1.
Proof.
  intros Hne. revert i last. induction s as [|a s IH]; intros i last; [done|].
  cbn [Str.endswith Str.rfind_from]. unfold Str.len. cbn [String.length].
  destruct s as [|b s].
  - intros Ha%bool_decide_eq_true Hl. subst a. cbn.
    rewrite decide_False by done. cbn in Hl. lia.
  - intros He Hl. specialize (IH (i + 1) (if decide (a = c') then i else last) He).
    unfold Str.len in IH. cbn [String.length] in IH, Hl |- *.
    destruct (decide (a = c')); lia.
Qed.

Lemma base_cases d : base d = "" ∨ Str.endswith posixpath.sep (base d) = true.
Proof.
  unfold base. destruct (bool_decide_reflect (d = "")) as [->|Hd]; [by left|]. cbn.
  destruct (Str.endswith posixpath.sep d) eqn:He; [by right|]. right.
  by rewrite endswith_app.
Qed.

Lemma rfind_sep_base d :
  Str.rfind posixpath.sep (base d) = Str.len (base d) - 1.
Proof.
  destruct (base_cases d) as [->|He]; [done|].
  unfold Str.rfind. rewrite rfind_from_endswith by done. lia.
Qed.

Lemma rfind_extsep_base d :
  Str.rfind posixpath.extsep (base d) ≤ Str.rfind posixpath.sep (base d).
Proof.
  rewrite rfind_sep_base.
  destruct (base_cases d) as [->|He]; [done|].
  pose proof (rfind_from_before_end posixpath.sep posixpath.extsep (base d) 0 (-1)) as Hb.
  unfold Str.rfind. destruct (base d) as [|a s] eqn:E; [done|].
  unfold Str.len in *. cbn [String.length] in *.
  specialize (Hb ltac:(done) He). lia.
Qed.

Lemma drop_app_add s1 s2 (n : nat) :
  Str.drop (String.length s1 + n) (s1 +:+ s2) = Str.drop n s2.
Proof. induction s1 as [|a s1 IH]; [done|]. by rewrite app_cons. Qed.

Lemma splitext_loop_shift n pre name (i k : Z) :
  0 ≤ i → 0 ≤ k →
  (posixpath.splitext_loop n (pre +:+ name) (Str.len pre + i) (Str.len pre + k)).2 =
  (posixpath.splitext_loop n name i k).2.
Proof.
  intros Hi Hk. revert i Hi. induction n as [|n IH]; intros i Hi; [done|].
  cbn [posixpath.splitext_loop].
  replace (Str.len pre + i <? Str.len pre + k) with (i <? k)
    by (destruct (Z.ltb_spec i k), (Z.ltb_spec (Str.len pre + i) (Str.len pre + k)); lia).
  destruct (i <? k); [|done].
  unfold Str.slice, Str.from.
  replace (Z.to_nat (Str.len pre + i)) with (String.length pre + Z.to_nat i)%nat
    by (unfold Str.len; lia).
  replace (Z.to_nat (Str.len pre + k)) with (String.length pre + Z.to_nat k)%nat
    by (unfold Str.len; lia).
  rewrite !drop_app_add.
  replace (Str.len pre + i + 1 - (Str.len pre + i)) with (i + 1 - i) by lia.
  destruct (bool_decide _); [done|].
  replace (Str.len pre + i + 1) with (Str.len pre + (i + 1)) by lia.
  apply IH. lia.
Qed.

(** The extension of a path built by [join] is the extension of the name. *)
Lemma splitext_base_name d name :
  Str.contains posixpath.sep name = false →
  (posixpath.splitext (base d +:+ name)).2 = (posixpath.splitext name).2.
Proof.
  intros Hc.
  assert (Str.rfind posixpath.sep (base d +:+ name) = Str.len (base d) - 1) as Hsep.
  { unfold Str.rfind. rewrite rfind_from_app, rfind_from_absent by done.
    apply rfind_sep_base. }
  assert (Str.rfind posixpath.sep name = -1) as Hsep' by by apply rfind_absent.
  unfold posixpath.splitext. cbv zeta. rewrite Hsep, Hsep'.
  destruct (Str.contains posixpath.extsep name) eqn:Hdot.
  - pose proof (rfind_from_bounds posixpath.extsep name 0 (-1) Hdot) as Hb.
    fold (Str.rfind posixpath.extsep name) in Hb.
    assert (Str.rfind posixpath.extsep (base d +:+ name) =
            Str.len (base d) + Str.rfind posixpath.extsep name) as ->.
    { unfold Str.rfind at 1. rewrite rfind_from_app, rfind_from_shift by done. lia. }
    replace (Str.len (base d) - 1 <? Str.len (base d) + Str.rfind posixpath.extsep name)
      with true by (symmetry; apply Z.ltb_lt; lia).
    replace (-1 <? Str.rfind posixpath.extsep name)
      with true by (symmetry; apply Z.ltb_lt; lia).
    replace (Str.len (base d) - 1 + 1) with (Str.len (base d) + 0) by lia.
    replace (Str.len (base d) + Str.rfind posixpath.extsep name - (Str.len (base d) + 0))
      with (Str.rfind posixpath.extsep name - (-1 + 1)) by lia.
    apply splitext_loop_shift; lia.
  - assert (Str.rfind posixpath.extsep (base d +:+ name) =
            Str.rfind posixpath.extsep (base d)) as ->.
    { unfold Str.rfind. by rewrite rfind_from_app, rfind_from_absent. }
    rewrite (rfind_absent posixpath.extsep name) by done.
    pose proof (rfind_extsep_base d) as Hle. rewrite rfind_sep_base in Hle.
    replace (Str.len (base d) - 1 <? Str.rfind posixpath.extsep (base d))
      with false by (symmetry; apply Z.ltb_ge; lia).
    done.
Qed.

Lemma splitext_join d name :
  plain_name name →
  (posixpath.splitext (posixpath.join d name)).2 = (posixpath.splitext name).2.
Proof. intros Hp. rewrite join_plain by done. apply splitext_base_name, Hp. Qed.

End SplitextLemmas.

Section NameLemmas.
Implicit Types (c a : ascii) (s d name rest e stem : string).

Lemma len_cons a s : Str.len (String a s) = Str.len s + 1.
Proof. unfold Str.len. cbn [String.length]. lia. Qed.

Lemma len_nonneg s : 0 ≤ Str.len s.
Proof. unfold Str.len. lia. Qed.

Lemma splitext_name_ext a rest e :
  a ≠ posixpath.extsep →
  Str.contains posixpath.sep (String a rest) = false →
  Str.contains posixpath.sep e = false →
  Str.contains posixpath.extsep e = false →
  (posixpath.splitext (String a rest +:+ String posixpath.extsep e)).2 =
  String posixpath.extsep e.
Proof.
  intros Ha Hs He Hd.
  set (name := String a rest +:+ String posixpath.extsep e).
  assert (Str.rfind posixpath.sep name = -1) as Hsep.
  { apply rfind_absent. unfold name. rewrite contains_app, Hs. cbn. by rewrite He. }
  assert (Str.rfind posixpath.extsep name = Str.len rest + 1) as Hdot.
  { unfold name, Str.rfind. rewrite rfind_from_app. cbn [Str.rfind_from].
    rewrite rfind_from_absent by done. rewrite (decide_True (P := _ = _)) by done.
    rewrite len_cons. lia. }
  unfold posixpath.splitext. cbv zeta. rewrite Hsep, Hdot.
  pose proof (len_nonneg rest).
  replace (-1 <? Str.len rest + 1) with true by (symmetry; apply Z.ltb_lt; lia).
  replace (Z.to_nat (Str.len rest + 1 - (-1 + 1))) with (S (String.length rest))
    by (unfold Str.len; lia).
  cbn [posixpath.splitext_loop].
  replace (-1 + 1 <? Str.len rest + 1) with true by (symmetry; apply Z.ltb_lt; lia).
  assert (Str.slice name (-1 + 1) (-1 + 1 + 1) = String a "") as -> by reflexivity.
  rewrite bool_decide_eq_true_2 by (intros [= ?]; done).
  cbn [snd]. unfold Str.from, name.
  replace (Z.to_nat (Str.len rest + 1)) with (String.length (String a rest))
    by (unfold Str.len; cbn [String.length]; lia).
  apply drop_app.
Qed.

Lemma dots_length n : String.length (dots n) = n.
Proof. induction n; cbn; by f_equal. Qed.

Lemma dots_no_sep n : Str.contains posixpath.sep (dots n) = false.
Proof. induction n; [done|]. cbn. by rewrite IHn. Qed.

Lemma dots_endswith n : Str.endswith posixpath.extsep (dots (S n)) = true.
Proof. induction n; [done|]. cbn [dots Str.endswith] in *. exact IHn. Qed.

Lemma drop_dots (i n : nat) stem :
  (i < n)%nat →
  Str.take 1 (Str.drop i (dots n +:+ stem)) = String posixpath.extsep "".
Proof.
  revert i. induction n as [|n IH]; intros i Hi; [lia|].
  cbn [dots]. rewrite app_cons. destruct i as [|i]; [done|].
  cbn [Str.drop]. apply IH. lia.
Qed.

Lemma splitext_loop_dots m (i n : nat) stem :
  (i + m < n)%nat →
  posixpath.splitext_loop m (dots n +:+ stem) (Z.of_nat i) (Z.of_nat (i + m)) =
  (dots n +:+ stem, "").
Proof.
  revert i. induction m as [|m IH]; intros i Hi; [done|].
  cbn [posixpath.splitext_loop].
  replace (Z.of_nat i <? Z.of_nat (i + S m)) with true by (symmetry; apply Z.ltb_lt; lia).
  unfold Str.slice.
  replace (Z.to_nat (Z.of_nat i + 1 - Z.of_nat i)) with 1%nat by lia.
  rewrite Nat2Z.id, drop_dots by lia.
  rewrite bool_decide_eq_false_2 by (intros Hn; by apply Hn).
  replace (Z.of_nat i + 1) with (Z.of_nat (S i)) by lia.
  replace (i + S m)%nat with (S i + m)%nat by lia.
  apply IH. lia.
Qed.

Lemma splitext_dots n stem :
  Str.contains posixpath.extsep stem = false →
  Str.contains posixpath.sep stem = false →
  (posixpath.splitext (dots n +:+ stem)).2 = "".
Proof.
  intros Hd Hs.
  assert (Str.rfind posixpath.sep (dots n +:+ stem) = -1) as Hsep.
  { apply rfind_absent. by rewrite contains_app, dots_no_sep, Hs. }
  unfold posixpath.splitext. cbv zeta. rewrite Hsep.
  destruct n as [|n].
  - cbn [dots]. rewrite app_nil_l, (rfind_absent _ _ Hd). done.
  - assert (Str.rfind posixpath.extsep (dots (S n) +:+ stem) = Z.of_nat n) as ->.
    { unfold Str.rfind. rewrite rfind_from_app, rfind_from_absent by done.
      rewrite rfind_from_endswith by apply dots_endswith.
      unfold Str.len. rewrite dots_length. lia. }
    replace (-1 <? Z.of_nat n) with true by (symmetry; apply Z.ltb_lt; lia).
    replace (Z.to_nat (Z.of_nat n - (-1 + 1))) with n by lia.
    pose proof (splitext_loop_dots n 0 (S n) stem ltac:(lia)) as Hl.
    cbn [Init.Nat.add] in Hl. change (-1 + 1) with (Z.of_nat 0). by rewrite Hl.
Qed.

End NameLemmas.

(** ** More on the classifier *)

Section ClassifierMore.
Context {W : Type} `{OS W}.
Implicit Types (w : W) (d name : string).

Lemma get_file_type_cases w file_path :
  get_file_type w file_path = "directory"
  ∨ get_file_type w file_path = "unknown"
  ∨ ∃ ext, type_map !! ext = Some (get_file_type w file_path).
Proof.
  unfold get_file_type. destruct (isdir w file_path); [by left|]. right.
  unfold dict_get. destruct (type_map !! _) as [kind|] eqn:E; [|by left].
  right. by eexists.
Qed.

Lemma type_map_kinds ext kind :
  type_map !! ext = Some kind →
  kind ∈ ["python"; "javascript"; "html"; "css"; "json"; "markdown"; "text"; "image"].
Proof.
  intros E. apply elem_of_list_to_map_2 in E.
  repeat (apply elem_of_cons in E as [E|E]; [injection E as -> ->; compute_done|]).
  by apply elem_of_nil in E.
Qed.

(** X1: whatever the path, the classifier answers with one of the ten
    kinds that [FILE_ICONS] has an icon for. *)
Theorem get_file_type_kind w file_path : get_file_type w file_path ∈ file_kinds.
Proof.
  destruct (get_file_type_cases w file_path) as [->|[->|[ext E]]];
    [compute_done|compute_done|].
  apply type_map_kinds in E. revert E. generalize (get_file_type w file_path).
  intros kind E.
  repeat (apply elem_of_cons in E as [->|E]; [compute_done|]).
  by apply elem_of_nil in E.
Qed.

(** X2: the icon of a path is always the entry of [FILE_ICONS] for the
    path's kind; the fallback to the icon of [unknown] is never taken for
    a kind that lacks an icon. *)
Theorem get_file_icon_of_kind w file_path :
  FILE_ICONS !! get_file_type w file_path = Some (get_file_icon w file_path).
Proof.
  unfold get_file_icon. cbv zeta.
  destruct (get_file_type_cases w file_path) as [->|[->|[ext E]]]; [done|done|].
  apply type_map_kinds in E.
  repeat (apply elem_of_cons in E as [->|E]; [done|]).
  by apply elem_of_nil in E.
Qed.

(** X3: the kind of a file in a directory is decided by the text after
    the last dot of its name: for a name that starts with a character
    other than a dot, the kind is the table entry of the lowercased final
    extension, whatever the directory and whatever dots come before. *)
Theorem get_file_type_final_extension w d (a : ascii) (rest e : string) :
  a ≠ posixpath.extsep →
  Str.contains posixpath.sep (String a rest) = false →
  Str.contains posixpath.sep e = false →
  Str.contains posixpath.extsep e = false →
  let name := String a rest +:+ String posixpath.extsep e in
  isdir w (posixpath.join d name) = false →
  get_file_type w (posixpath.join d name) =
  dict_get type_map (Str.lower (String posixpath.extsep e)) "unknown".
Proof.
  intros Ha Hs He Hd name Hdir.
  rewrite get_file_type_not_dir by done.
  rewrite splitext_join.
  - unfold name. by rewrite splitext_name_ext.
  - split; [by unfold name; rewrite app_cons|].
    unfold name. rewrite contains_app, Hs. cbn. by rewrite He.
Qed.

(** X4: a file whose name has no dot except leading ones (a name without
    extension, or a dot file such as [.py] or [.gitignore]) is [unknown]:
    leading dots never start an extension. *)
Theorem get_file_type_dot_file w d (n : nat) (stem : string) :
  Str.contains posixpath.extsep stem = false →
  Str.contains posixpath.sep stem = false →
  dots n +:+ stem ≠ "" →
  isdir w (posixpath.join d (dots n +:+ stem)) = false →
  get_file_type w (posixpath.join d (dots n +:+ stem)) = "unknown".
Proof.
  intros Hd Hs Hne Hdir.
  rewrite get_file_type_not_dir by done.
  rewrite splitext_join.
  - by rewrite splitext_dots.
  - split; [done|]. by rewrite contains_app, dots_no_sep, Hs.
Qed.

(** X5: the kind of a file does not depend on the directory it lies in. *)
Theorem get_file_type_any_directory w d d' name :
  plain_name name →
  isdir w (posixpath.join d name) = false →
  isdir w (posixpath.join d' name) = false →
  get_file_type w (posixpath.join d name) = get_file_type w (posixpath.join d' name).
Proof.
  intros Hp Hd Hd'. rewrite !get_file_type_not_dir by done.
  by rewrite !splitext_join.
Qed.

End ClassifierMore.

(** ** More on the scanned tree *)

Section ScannerMore.
Context {W : Type} `{OS W}.
Implicit Types (w : W) (d item : string) (items : list string).

Lemma classified_child w d item n :
  isdir w (posixpath.join d item) = true →
  classified w (posixpath.join d item) n → classified w d n.
Proof.
  intros Hd [[Ht [Hp|Hp]]|Hf]; [left|left|by right].
  - split; [done|]. right. by rewrite Hp.
  - split; [done|]. by right.
Qed.

Lemma scan_workspace_classified w fuel d t out :
  scan_workspace fuel w d = Some (t, out) → Forall (classified w d) (nodes t).
Proof.
  revert fuel d t out. apply scan_workspace_ind.
  - intros d e _. constructor; [|constructor]. unfold classified. left.
    split; [done|by left].
  - intros d items cos _ _ HF. cbn. constructor.
    { unfold classified. left. split; [done|by left]. }
    induction HF as [|item [c o] l cos Hco _ IH]; [constructor|].
    cbn. apply Forall_app. split; [|exact IH].
    destruct (isdir w (posixpath.join d item)) eqn:Hd.
    + eapply Forall_impl; [exact Hco|]. intros n. by apply classified_child.
    + simplify_eq. cbn. constructor; [|constructor]. unfold classified. by right.
Qed.

(** X6: when the scanned root is a directory, the type recorded in every
    node of the tree is what the classifier says about the node's path,
    and the node is a directory node exactly when its path is a
    directory. *)
Theorem scan_workspace_types w fuel d t out :
  isdir w d = true →
  scan_workspace fuel w d = Some (t, out) →
  Forall (λ n, type n = get_file_type w (path n)
               ∧ (is_directory n ↔ isdir w (path n) = true)) (nodes t).
Proof.
  intros Hd Hs. eapply Forall_impl; [by eapply scan_workspace_classified|].
  intros n [[Ht Hp]|[Hf Ht]]; cbn.
  - assert (isdir w (path n) = true) as Hdir by (destruct Hp as [->|]; done).
    rewrite get_file_type_dir by done. by split.
  - split; [done|]. unfold is_directory. rewrite Ht, Hf. split; [|done].
    intros Hdir. exfalso. by eapply get_file_type_file.
Qed.

Lemma scan_workspace_names_inv w :
  well_listed w →
  ∀ fuel d t out, scan_workspace fuel w d = Some (t, out) →
    Forall (λ n, name n = posixpath.basename (path n)) (nodes t).
Proof.
  intros Hw. apply scan_workspace_ind.
  - intros d e _. by repeat constructor.
  - intros d items cos Hl _ HF. cbn. constructor; [done|].
    destruct (Hw d items Hl) as [_ Hplain].
    assert (Forall plain_name (listed_items w d items)) as Hplain'.
    { by rewrite listed_items_perm. }
    clear Hplain Hl. induction HF as [|item [c o] l cos Hco _ IH]; [constructor|].
    apply Forall_cons in Hplain' as [Hp Hpl].
    cbn. apply Forall_app. split; [|by apply IH].
    destruct (isdir w (posixpath.join d item)); [done|].
    simplify_eq. cbn. repeat constructor. cbn. by rewrite basename_join.
Qed.

(** X7: in a scanned tree the name of every node is the last component of
    its path. *)
Theorem scan_workspace_names w fuel d t out :
  well_listed w →
  scan_workspace fuel w d = Some (t, out) →
  Forall (λ n, name n = posixpath.basename (path n)) (nodes t).
Proof. intros Hw Hs. by eapply scan_workspace_names_inv. Qed.

Lemma get_file_type_same_isdir (w1 w2 : W) p :
  isdir w1 p = isdir w2 p → get_file_type w1 p = get_file_type w2 p.
Proof. unfold get_file_type. by intros ->. Qed.

Lemma scan_items_ext (w1 w2 : W) scan1 scan2 d l :
  (∀ p, isdir w1 p = isdir w2 p) →
  (∀ p, scan1 p = scan2 p) →
  scan_items w1 scan1 d l = scan_items w2 scan2 d l.
Proof.
  intros Hd Hs. induction l as [|item rest IH]; [done|].
  rewrite !scan_items_cons, IH, Hs, Hd. unfold file_node.
  by rewrite (get_file_type_same_isdir w1 w2).
Qed.

Lemma sorted_perm (l1 l2 : list string) : l1 ≡ₚ l2 → sorted l1 = sorted l2.
Proof.
  intros Hp. unfold sorted.
  apply (StronglySorted_unique String.le);
    [apply StronglySorted_merge_sort; apply _..|].
  by rewrite !merge_sort_Permutation.
Qed.

Lemma listed_items_perm_eq (w1 w2 : W) d l1 l2 :
  (∀ p, isdir w1 p = isdir w2 p) → l1 ≡ₚ l2 →
  listed_items w1 d l1 = listed_items w2 d l2.
Proof.
  intros Hd Hp. unfold listed_items. f_equal; apply sorted_perm.
  - rewrite Hp. apply reflexive_eq. apply list_filter_iff. intros x. by rewrite Hd.
  - rewrite Hp. apply reflexive_eq. apply list_filter_iff. intros x. by rewrite Hd.
Qed.

(** X8: the scanned tree and the printed lines do not depend on the order
    in which [os.listdir] enumerates the entries: two file systems that
    differ only in that order give the same result. *)
Theorem scan_workspace_listing_order (w1 w2 : W) fuel d :
  same_up_to_listing_order w1 w2 →
  scan_workspace fuel w1 d = scan_workspace fuel w2 d.
Proof.
  intros [Hd Hl]. revert d. induction fuel as [|fuel IH]; intros d; [done|].
  rewrite !scan_workspace_S. specialize (Hl d).
  destruct (listdir w1 d) as [l1|e1], (listdir w2 d) as [l2|e2]; try done.
  - rewrite (listed_items_perm_eq w1 w2 d l1 l2 Hd Hl).
    by rewrite (scan_items_ext w1 w2 (scan_workspace fuel w1) (scan_workspace fuel w2)).
  - by subst.
Qed.

End ScannerMore.

(** ** More on the event handlers *)

Section HandlersMore.
Context {W : Type} `{OS W}.
Implicit Types (w : W) (st : AppState) (ev : payload).

Lemma handle_select_file_cases w st ev :
  (∃ e, handle_select_file w st ev = (w, st, Returns (Error e)))
  ∨ (∃ file_path content,
       payload_field "path" ev = Some file_path
       ∧ isdir w file_path = false
       ∧ read_file_content w file_path = Returns content
       ∧ handle_select_file w st ev =
         (w, {| workspace_state := workspace_state st;
                current_file_state := file_path;
                file_content_state := content |},
          Returns (Selected file_path (get_file_type w file_path)))).
Proof.
  unfold handle_select_file, payload_field.
  destruct ev as [d|]; cbn; [|left; by eexists].
  destruct (decide (d = ∅)); [left; by eexists|].
  destruct (d !! "path") as [file_path|]; [|left; by eexists].
  destruct (isdir w file_path) eqn:Hd; [left; by eexists|].
  destruct (read_file_content_returns w file_path) as [content Hc].
  right. exists file_path, content. by rewrite Hc.
Qed.

Lemma handle_update_file_content_cases w st ev :
  (∃ w' e, handle_update_file_content w st ev = (w', st, Returns (Error e)))
  ∨ (∃ w' file_path new_content,
       handle_update_file_content w st ev =
       (w', set_file_content st new_content, Returns (Updated file_path))).
Proof.
  unfold handle_update_file_content.
  destruct ev as [d|]; [|left; by eexists _, _].
  destruct (decide (d = ∅)); [left; by eexists _, _|].
  destruct (d !! "path") as [file_path|], (d !! "content") as [new_content|];
    try (left; by eexists _, _).
  destruct (isdir w file_path); [left; by eexists _, _|].
  destruct (write_text w file_path new_content) as [w1 [u|e]].
  - right. by eexists _, _, _.
  - left. by eexists _, _.
Qed.


(** X10: a handler that answers with an error has left the application
    state as it was, and the select-file handler the file system too. *)
Theorem handlers_error_no_change w st ev w' st' e :
  (handle_select_file w st ev = (w', st', Returns (Error e)) → w' = w ∧ st' = st)
  ∧ (handle_update_file_content w st ev = (w', st', Returns (Error e)) → st' = st).
Proof.
  split; intros Hh.
  - destruct (handle_select_file_cases w st ev) as [[e' E]|(p & c & _ & _ & _ & E)];
      rewrite E in Hh; by simplify_eq.
  - destruct (handle_update_file_content_cases w st ev) as [(w1 & e' & E)|(w1 & p & c & E)];
      rewrite E in Hh; by simplify_eq.
Qed.

(** X11: selecting is idempotent: the same select-file event a second
    time, right after the first, gives the same result and changes
    nothing further. *)
Theorem handle_select_file_idempotent w st ev :
  let '(w1, st1, r1) := handle_select_file w st ev in
  handle_select_file w1 st1 ev = (w1, st1, r1).
Proof.
  destruct (handle_select_file_cases w st ev) as [[e E]|(p & c & Hp & Hd & Hc & E)];
    rewrite E.
  - exact E.
  - set (st1 := {| workspace_state := workspace_state st; current_file_state := p;
                   file_content_state := c |}).
    destruct (handle_select_file_cases w st1 ev) as [[e E1]|(p' & c' & Hp' & _ & Hc' & E1)].
    + exfalso. revert E1. unfold handle_select_file. unfold payload_field in Hp.
      destruct ev as [d|]; [|done]. cbn in Hp.
      destruct (decide (d = ∅)) as [->|_]; [by rewrite lookup_empty in Hp|].
      rewrite Hp, Hd, Hc. done.
    + rewrite E1. rewrite Hp in Hp'. injection Hp' as <-.
      rewrite Hc in Hc'. by injection Hc' as <-.
Qed.

(** X12: write then read through the handlers: when the file system
    gives back what was written, an update of a path followed by a select
    of the same path loads the new text into the buffer. *)
Theorem update_then_select w w' st (d : gmap string string)
    (file_path new_content : string) (u : unit) :
  d !! "path" = Some file_path →
  d !! "content" = Some new_content →
  isdir w file_path = false →
  write_text w file_path new_content = (w', Returns u) →
  isdir w' file_path = false →
  read_text w' file_path = Returns new_content →
  let '(w1, st1, r1) := handle_update_file_content w st (Some d) in
  r1 = Returns (Updated file_path)
  ∧ handle_select_file w1 st1 (Some {[ "path" := file_path ]}) =
    (w', {| workspace_state := workspace_state st;
            current_file_state := file_path;
            file_content_state := new_content |},
     Returns (Selected file_path (get_file_type w' file_path))).
Proof.
  intros Hp Hc Hd Hw Hd' Hr. unfold handle_update_file_content.
  destruct (decide (d = ∅)) as [->|_]; [by rewrite lookup_empty in Hp|].
  rewrite Hp, Hc, Hd, Hw. split; [done|].
  unfold handle_select_file.
  rewrite decide_False by (apply insert_non_empty).
  rewrite lookup_singleton_eq, Hd'. unfold read_file_content. by rewrite Hr.
Qed.

Lemma handle_select_file_workspace w st ev :
  (handle_select_file w st ev).1.1 = w
  ∧ workspace_state (handle_select_file w st ev).1.2 = workspace_state st.
Proof.
  destruct (handle_select_file_cases w st ev) as [[e ->]|(p & c & _ & _ & _ & ->)]; done.
Qed.

Lemma handle_update_file_content_workspace w st ev :
  workspace_state (handle_update_file_content w st ev).1.2 = workspace_state st.
Proof.
  destruct (handle_update_file_content_cases w st ev) as [(w' & e & ->)|(w' & p & c & ->)];
    done.
Qed.

Lemma run_workspace w st op :
  workspace_state (run w st op).1.2 = workspace_state st
  ∧ (is_update op = false → (run w st op).1.1 = w).
Proof.
  destruct op; cbn; try done.
  - pose proof (handle_select_file_workspace w st event_data) as [? ?].
    by destruct (handle_select_file w st event_data) as [[w1 st1] r1].
  - pose proof (handle_update_file_content_workspace w st event_data).
    by destruct (handle_update_file_content w st event_data) as [[w1 st1] r1].
Qed.

(** X13: the workspace tree is built once: no sequence of operations,
    handlers included, changes it, so a file created through the update
    handler does not show up in the tree. *)
Theorem workspace_state_frozen w st (ops : list operation) :
  workspace_state (run_all w st ops).2 = workspace_state st.
Proof.
  revert w st. induction ops as [|op ops IH]; intros w st; [done|].
  cbn. pose proof (run_workspace w st op) as [Hw _].
  destruct (run w st op) as [[w1 st1] r]. cbn in Hw. by rewrite IH.
Qed.

(** X14: only the update-content handler writes: a sequence of operations
    without an update step leaves the file system as it was. *)
Theorem file_system_written_only_by_update w st (ops : list operation) :
  forallb (λ op, negb (is_update op)) ops = true →
  (run_all w st ops).1 = w.
Proof.
  revert w st. induction ops as [|op ops IH]; intros w st; [done|].
  cbn. intros [Hop Hops]%andb_true_iff.
  pose proof (run_workspace w st op) as [_ Hw].
  destruct (run w st op) as [[w1 st1] r]. cbn in Hw.
  rewrite IH by done. apply Hw. by apply negb_true_iff.
Qed.

(** X15: every file shown in a scanned tree can be opened: selecting the
    path of a non-directory node of the tree succeeds, and the type in
    the result is the type recorded in the node. *)
Theorem select_scanned_file w st fuel d t out (n : FileNode) :
  scan_workspace fuel w d = Some (t, out) →
  n ∈ nodes t →
  ¬ is_directory n →
  ∃ content,
    read_file_content w (path n) = Returns content
    ∧ handle_select_file w st (Some {[ "path" := path n ]}) =
      (w, {| workspace_state := workspace_state st;
             current_file_state := path n;
             file_content_state := content |},
       Returns (Selected (path n) (type n))).
Proof.
  intros Hs Hn Hnd.
  pose proof (scan_workspace_classified w fuel d t out Hs) as Hc.
  eapply Forall_forall in Hc; [|exact Hn].
  destruct Hc as [[Ht _]|[Hf Ht]]; [done|].
  destruct (read_file_content_returns w (path n)) as [content Hr].
  exists content. split; [done|].
  unfold handle_select_file.
  rewrite decide_False by (apply insert_non_empty).
  by rewrite lookup_singleton_eq, Hf, Hr, Ht.
Qed.

End HandlersMore.

(** ** The views *)

Lemma FileNode_nested_ind (P : FileNode → Prop) :
  (∀ nm p ty, P (mkFileNode nm p ty None)) →
  (∀ nm p ty l, Forall P l → P (mkFileNode nm p ty (Some l))) →
  ∀ n, P n.
Proof.
  intros Hfile Hdir. fix IH 1. intros [nm p ty [l|]]; [|apply Hfile].
  apply Hdir. induction l as [|c l IHl]; constructor; [apply IH|exact IHl].
Qed.

Section ListLemmas.
Context {A B : Type}.

Lemma flat_map_fmap {C} (f : A → B) (g : B → list C) (l : list A) :
  flat_map g (f <$> l) = flat_map (λ x, g (f x)) l.
Proof. induction l as [|x l IH]; [done|]. cbn. by rewrite IH. Qed.

Lemma filter_flat_map (P : B → Prop) `{∀ x, Decision (P x)} (g : A → list B) (l : list A) :
  filter P (flat_map g l) = flat_map (λ x, filter P (g x)) l.
Proof. induction l as [|x l IH]; [done|]. cbn. by rewrite filter_app, IH. Qed.

Lemma flat_map_singleton (f : A → B) (l : list A) :
  flat_map (λ x, [f x]) l = f <$> l.
Proof. induction l as [|x l IH]; [done|]. cbn. by rewrite IH. Qed.

Lemma filter_none_of_fmap `{EqDecision B} (f : A → B) (c : B) (l : list A) :
  c ∉ f <$> l → filter (λ x, f x = c) l = [].
Proof.
  induction l as [|x l IH]; [done|]. rewrite fmap_cons. intros Hn.
  apply not_elem_of_cons in Hn as [Hne Hn].
  rewrite filter_cons_False by done. by apply IH.
Qed.

Lemma filter_NoDup_fmap_length `{EqDecision B} (f : A → B) (c : B) (l : list A) :
  NoDup (f <$> l) → (length (filter (λ x, f x = c) l) ≤ 1)%nat.
Proof.
  induction l as [|x l IH]; [cbn; lia|]. rewrite fmap_cons.
  intros [Hn Hnd]%NoDup_cons.
  destruct (decide (f x = c)) as [<-|Hne].
  - rewrite filter_cons_True by done. rewrite filter_none_of_fmap by done. cbn. lia.
  - rewrite filter_cons_False by done. by apply IH.
Qed.

Lemma filter_length_pos (P : A → Prop) `{∀ x, Decision (P x)} (l : list A) :
  (0 < length (filter P l))%nat ↔ ∃ x, x ∈ l ∧ P x.
Proof.
  split.
  - destruct (filter P l) as [|x k] eqn:E; cbn; [lia|]. intros _.
    assert (x ∈ filter P l) as Hx by (rewrite E; left).
    apply list_elem_of_filter in Hx as [? ?]. by exists x.
  - intros (x & Hx & HP).
    assert (x ∈ filter P l) as Hin by by apply list_elem_of_filter.
    destruct (filter P l); [by apply elem_of_nil in Hin|]. cbn. lia.
Qed.

End ListLemmas.

Section ViewsMore.
Context {W : Type} `{OS W}.
Implicit Types (w : W) (st : AppState) (node : FileNode).

Lemma file_nodes_file nm p ty :
  ty ≠ "directory" → file_nodes (mkFileNode nm p ty None) = [mkFileNode nm p ty None].
Proof.
  intros Hty. unfold file_nodes. cbn [nodes children].
  by rewrite filter_cons_True, filter_nil.
Qed.

Lemma file_nodes_dir nm p l :
  file_nodes (mkFileNode nm p "directory" (Some l)) = flat_map file_nodes l.
Proof.
  unfold file_nodes. cbn [nodes children].
  rewrite filter_cons_False by (intros Hn; by apply Hn).
  apply filter_flat_map.
Qed.

(** What the rendered tree holds under a key is what its file items hold
    under it, as soon as directory items and wrappers hold nothing. *)
Lemma values_at_render_file_tree w st (k : string) (g : FileNode → list value) node :
  (∀ level nm p ty, ty ≠ "directory" →
     values_at k (render_file_tree w st level (mkFileNode nm p ty None)) =
     g (mkFileNode nm p ty None)) →
  (∀ level nm p l,
     values_at k (render_file_tree w st level (mkFileNode nm p "directory" (Some l))) =
     flat_map (values_at k) (map (render_file_tree w st (level + 1)) l)) →
  Forall has_children_iff_directory (nodes node) →
  ∀ level, values_at k (render_file_tree w st level node) = flat_map g (file_nodes node).
Proof.
  intros Hfile Hdir. induction node as [nm p ty|nm p ty l IH] using FileNode_nested_ind;
    intros Hshape level.
  - apply Forall_cons in Hshape as [[_ Hn] _]. cbn in Hn.
    assert (ty ≠ "directory") as Hty.
    { intros Hd. by destruct (Hn Hd). }
    rewrite Hfile, file_nodes_file by done. cbn. by rewrite List.app_nil_r.
  - cbn [nodes children] in Hshape. apply Forall_cons in Hshape as [[Hn _] Hrest].
    assert (ty = "directory") as -> by (apply Hn; by eexists).
    rewrite Hdir, file_nodes_dir. clear Hn.
    induction l as [|c l IHl]; [done|].
    cbn in Hrest. apply Forall_app in Hrest as [Hc Hl].
    apply Forall_cons in IH as [IHc IH].
    cbn. rewrite flat_map_app, IHc by done. f_equal. by apply IHl.
Qed.

Lemma values_at_data_tree w st node level :
  Forall has_children_iff_directory (nodes node) →
  values_at "data" (render_file_tree w st level node) =
  (λ n, VDict [("path", VStr (path n))]) <$> file_nodes node.
Proof.
  intros Hshape. rewrite <- flat_map_singleton.
  apply values_at_render_file_tree; [| |done].
  - intros lv nm p ty Hty. cbn [render_file_tree type path children name].
    rewrite bool_decide_eq_false_2 by done. reflexivity.
  - intros lv nm p l. cbn [render_file_tree type path children name].
    rewrite !bool_decide_eq_true_2 by done. cbn. by rewrite ?List.app_nil_r.
Qed.

Lemma values_at_action_tree w st node level :
  Forall has_children_iff_directory (nodes node) →
  values_at "action" (render_file_tree w st level node) =
  (λ _, VStr "select_file") <$> file_nodes node.
Proof.
  intros Hshape. rewrite <- flat_map_singleton.
  apply values_at_render_file_tree; [| |done].
  - intros lv nm p ty Hty. cbn [render_file_tree type path children name].
    rewrite bool_decide_eq_false_2 by done. reflexivity.
  - intros lv nm p l. cbn [render_file_tree type path children name].
    rewrite !bool_decide_eq_true_2 by done. cbn. by rewrite ?List.app_nil_r.
Qed.

Lemma values_at_background_tree w st node level :
  Forall has_children_iff_directory (nodes node) →
  values_at "backgroundColor" (render_file_tree w st level node) =
  flat_map (λ n, [VStr (if bool_decide (path n = current_file_state st)
                        then "#37373d" else "transparent");
                  VStr "#2a2d2e"]) (file_nodes node).
Proof.
  intros Hshape.
  apply (values_at_render_file_tree w st "backgroundColor"); [| |done].
  - intros lv nm p ty Hty. cbn [render_file_tree type path children name].
    rewrite bool_decide_eq_false_2 by done. reflexivity.
  - intros lv nm p l. cbn [render_file_tree type path children name].
    rewrite !bool_decide_eq_true_2 by done. cbn. by rewrite ?List.app_nil_r.
Qed.

Lemma values_at_action_editor w st :
  values_at "action" (Editor_render w st) =
  if truthy (current_file_state st) then [VStr "update_file_content"] else [].
Proof. unfold Editor_render. cbv zeta. by destruct (truthy (current_file_state st)). Qed.

Lemma values_at_data_editor w st :
  values_at "data" (Editor_render w st) =
  if truthy (current_file_state st)
  then [VDict [("path", VStr (current_file_state st))]] else [].
Proof. unfold Editor_render. cbv zeta. by destruct (truthy (current_file_state st)). Qed.

(** X16: what the page lets the user do: the view built by [home] holds
    one [select_file] action per file of the workspace tree, carrying that
    file's path, in tree order, and after them one [update_file_content]
    action carrying the selected path when there is a selection; it holds
    no other action. *)
Theorem home_actions w st :
  Forall has_children_iff_directory (nodes (workspace_state st)) →
  values_at "action" (home w st) =
    ((λ _, VStr "select_file") <$> file_nodes (workspace_state st))
    ++ (if truthy (current_file_state st) then [VStr "update_file_content"] else [])
  ∧ values_at "data" (home w st) =
    ((λ n, VDict [("path", VStr (path n))]) <$> file_nodes (workspace_state st))
    ++ (if truthy (current_file_state st)
        then [VDict [("path", VStr (current_file_state st))]] else []).
Proof.
  intros Hshape.
  pose proof (values_at_action_tree w st (workspace_state st) 0 Hshape) as Ha.
  pose proof (values_at_data_tree w st (workspace_state st) 0 Hshape) as Hd.
  pose proof (values_at_action_editor w st) as Ha'.
  pose proof (values_at_data_editor w st) as Hd'.
  split.
  - transitivity (values_at "action" (render_file_tree w st 0 (workspace_state st))
                  ++ values_at "action" (Editor_render w st)).
    + unfold home, FileExplorer_render, StatusBar_render. cbv zeta.
      cbn [values_at flat_map fst snd String.eqb Ascii.eqb Bool.eqb app].
      by rewrite ?List.app_nil_r.
    + by rewrite Ha, Ha'.
  - transitivity (values_at "data" (render_file_tree w st 0 (workspace_state st))
                  ++ values_at "data" (Editor_render w st)).
    + unfold home, FileExplorer_render, StatusBar_render. cbv zeta.
      cbn [values_at flat_map fst snd String.eqb Ascii.eqb Bool.eqb app].
      by rewrite ?List.app_nil_r.
    + by rewrite Hd, Hd'.
Qed.

Lemma highlighted_items (cur : string) (l : list FileNode) :
  length (filter (λ v, highlighted v = true)
            (flat_map (λ n, [VStr (if bool_decide (path n = cur)
                                   then "#37373d" else "transparent");
                             VStr "#2a2d2e"]) l)) =
  length (filter (λ n, path n = cur) l).
Proof.
  induction l as [|n l IH]; [done|].
  cbn [flat_map app]. destruct (bool_decide_reflect (path n = cur)) as [E|E].
  - rewrite (filter_cons_True (λ v, highlighted v = true)) by done.
    rewrite (filter_cons_False (λ v, highlighted v = true)) by done.
    rewrite (filter_cons_True (λ n, path n = cur)) by done. cbn. by rewrite IH.
  - rewrite !(filter_cons_False (λ v, highlighted v = true)) by done.
    by rewrite (filter_cons_False (λ n, path n = cur)) by done.
Qed.

Lemma NoDup_path_file_nodes (t : FileNode) :
  NoDup (path <$> nodes t) → NoDup (path <$> file_nodes t).
Proof.
  unfold file_nodes. generalize (nodes t). intros l.
  induction l as [|n l IH]; [done|]. rewrite fmap_cons.
  intros [Hn Hnd]%NoDup_cons.
  destruct (decide (¬ is_directory n)) as [Hf|Hf].
  - rewrite filter_cons_True by done. rewrite fmap_cons. apply NoDup_cons.
    split; [|by apply IH].
    intros [n' [E Hin]]%list_elem_of_fmap. apply Hn.
    apply list_elem_of_filter in Hin as [_ Hin]. apply list_elem_of_fmap. by exists n'.
  - rewrite filter_cons_False by done. by apply IH.
Qed.

(** X17: in the explorer of a scanned workspace at most one item is
    highlighted, and one is exactly when the selection is the path of a
    file of the tree. *)
Theorem explorer_highlight w st fuel d out :
  well_listed w →
  scan_workspace fuel w d = Some (workspace_state st, out) →
  let count :=
    length (filter (λ v, highlighted v = true)
              (values_at "backgroundColor" (FileExplorer_render w st))) in
  (count ≤ 1)%nat
  ∧ ((0 < count)%nat ↔
     ∃ n, n ∈ file_nodes (workspace_state st) ∧ path n = current_file_state st).
Proof.
  intros Hw Hs.
  destruct (scan_workspace_tree_paths w fuel d _ out Hw Hs) as (_ & Hshape & _ & Hnd & _).
  assert (values_at "backgroundColor" (FileExplorer_render w st) =
          VStr "#252526"
          :: values_at "backgroundColor" (render_file_tree w st 0 (workspace_state st)))
    as ->.
  { unfold FileExplorer_render. cbv zeta.
    cbn [values_at flat_map fst snd String.eqb Ascii.eqb Bool.eqb app].
    by rewrite ?List.app_nil_r. }
  rewrite values_at_background_tree by done.
  rewrite filter_cons_False by done. rewrite highlighted_items. cbv zeta. split.
  - apply filter_NoDup_fmap_length. by apply NoDup_path_file_nodes.
  - apply filter_length_pos.
Qed.

Lemma join_nonempty a (c : ascii) (b : string) : posixpath.join a (String c b) ≠ "".
Proof.
  unfold posixpath.join. destruct (Str.startswith _ _); [done|].
  destruct (_ || _); destruct a; by rewrite ?app_nil_l, ?app_cons.
Qed.

(** X18: start-up succeeds whenever the scan of the workspace returns,
    also when [README.md] is missing: the selection is [README.md] in the
    workspace directory, the buffer is what the reader gives for it, and
    the editor pane is shown, never the welcome screen. *)
Theorem init_shows_editor w fuel here t out :
  scan_workspace fuel w (posixpath.join here "workspace") = Some (t, out) →
  ∃ st,
    init fuel w here = Some (st, out)
    ∧ workspace_state st = t
    ∧ current_file_state st =
      posixpath.join (posixpath.join here "workspace") "README.md"
    ∧ read_file_content w (current_file_state st) = Returns (file_content_state st)
    ∧ values_at "action" (Editor_render w st) = [VStr "update_file_content"].
Proof.
  intros Hs. unfold init. rewrite Hs. cbn.
  destruct (read_file_content_returns w
              (posixpath.join (posixpath.join here "workspace") "README.md"))
    as [content Hc].
  rewrite Hc. eexists. split; [done|]. split_and!; try done.
  rewrite values_at_action_editor. cbn [current_file_state]. unfold truthy.
  by rewrite bool_decide_eq_false_2 by apply join_nonempty.
Qed.

(** X19: from the handler to the screen: after a successful select of a
    non-empty path, the status bar shows the upper-cased type that the
    handler returned, and the editor shows the icon and base name of the
    path and the loaded content, its update action carrying the path. *)
Theorem select_then_render w st ev w' st' (file_path ty : string) :
  handle_select_file w st ev = (w', st', Returns (Selected file_path ty)) →
  file_path ≠ "" →
  values_at "content" (StatusBar_render w' st') =
    [VStr "VS Code Replica"; VStr (Str.upper ty)]
  ∧ values_at "content" (Editor_render w' st') =
    [VStr (get_file_icon w' file_path); VStr (posixpath.basename file_path);
     VStr (file_content_state st')]
  ∧ read_file_content w file_path = Returns (file_content_state st')
  ∧ values_at "data" (Editor_render w' st') = [VDict [("path", VStr file_path)]].
Proof.
  intros Hh Hne.
  destruct (handle_select_file_cases w st ev) as [[e E]|(p & c & _ & _ & Hc & E)];
    rewrite E in Hh; [done|]. simplify_eq.
  assert (truthy file_path = true) as Ht.
  { unfold truthy. by rewrite bool_decide_eq_false_2. }
  split_and!.
  - unfold StatusBar_render. cbv zeta. cbn [current_file_state]. by rewrite Ht.
  - unfold Editor_render. cbv zeta. cbn [current_file_state file_content_state].
    by rewrite Ht.
  - done.
  - rewrite values_at_data_editor. cbn [current_file_state]. by rewrite Ht.
Qed.

End ViewsMore.

(** ** The further properties on the reference file system *)

Lemma demo_state_scan :
  scan_workspace 8 MemFS.demo "/app/workspace" =
  Some (workspace_state demo_state,
        ["Error scanning workspace: [Errno 13] Permission denied: '/app/workspace/private'"]).
Proof. by vm_compute. Qed.

Lemma demo_state_shape :
  Forall has_children_iff_directory (nodes (workspace_state demo_state)).
Proof.
  by destruct (scan_workspace_tree_paths MemFS.demo 8 "/app/workspace" _ _
                 demo_well_listed demo_state_scan) as (_ & ? & _).
Qed.

Lemma demo_reordered_same : same_up_to_listing_order MemFS.demo demo_reordered.
Proof.
  split; intros p; destruct (decide (p = "/app/workspace")) as [->|Hne].
  - by vm_compute.
  - cbn. unfold MemFS.mem_isdir, demo_reordered. cbn [MemFS.objects].
    by rewrite lookup_insert_ne.
  - change (listdir MemFS.demo "/app/workspace")
      with (Returns ["notes.TXT"; "src"; "README.md"; "private"; "Zed.py"]).
    change (listdir demo_reordered "/app/workspace")
      with (Returns (reverse ["notes.TXT"; "src"; "README.md"; "private"; "Zed.py"])).
    cbv beta iota. symmetry. apply reverse_Permutation.
  - cbn. unfold MemFS.mem_listdir, demo_reordered. cbn [MemFS.objects].
    rewrite lookup_insert_ne by done.
    by destruct (MemFS.objects MemFS.demo !! p) as [[]|].
Qed.

Lemma get_file_type_final_extension_witness :
  get_file_type MemFS.demo "/app/workspace/photo.old.JPG" = "image".
Proof.
  change (get_file_type MemFS.demo
            (posixpath.join "/app/workspace"
               (String "p" "hoto.old" +:+ String posixpath.extsep "JPG")) =
          dict_get type_map (Str.lower (String posixpath.extsep "JPG")) "unknown").
  apply get_file_type_final_extension; done.
Defined.

Lemma get_file_type_dot_file_witness :
  get_file_type MemFS.demo "/app/workspace/.py" = "unknown".
Proof.
  change (get_file_type MemFS.demo (posixpath.join "/app/workspace" (dots 1 +:+ "py")) =
          "unknown").
  apply get_file_type_dot_file; done.
Defined.

Lemma get_file_type_any_directory_witness :
  get_file_type MemFS.demo "/app/workspace/app.py" =
  get_file_type MemFS.demo "/app/workspace/src/app.py".
Proof.
  change (get_file_type MemFS.demo (posixpath.join "/app/workspace" "app.py") =
          get_file_type MemFS.demo (posixpath.join "/app/workspace/src" "app.py")).
  apply get_file_type_any_directory; done.
Defined.

Lemma scan_workspace_types_witness :
  Forall (λ n, type n = get_file_type MemFS.demo (path n)
               ∧ (is_directory n ↔ isdir MemFS.demo (path n) = true))
         (nodes (workspace_state demo_state)).
Proof.
  eapply (scan_workspace_types MemFS.demo 8 "/app/workspace"); [done|].
  exact demo_state_scan.
Defined.

Lemma scan_workspace_names_witness :
  Forall (λ n, name n = posixpath.basename (path n)) (nodes (workspace_state demo_state)).
Proof.
  eapply (scan_workspace_names MemFS.demo 8 "/app/workspace");
    [exact demo_well_listed|exact demo_state_scan].
Defined.

Lemma scan_workspace_listing_order_witness :
  scan_workspace 8 MemFS.demo "/app/workspace" =
  scan_workspace 8 demo_reordered "/app/workspace".
Proof.
  exact (scan_workspace_listing_order MemFS.demo demo_reordered 8 "/app/workspace"
           demo_reordered_same).
Defined.

Lemma handlers_error_no_change_witness :
  handle_update_file_content MemFS.demo_ro demo_state
    (Some (<[ "content" := "X" ]> {[ "path" := "/app/workspace/README.md" ]})) =
  (MemFS.demo_ro, demo_state,
   Returns (Error "Error updating file: [Errno 30] Read-only file system: '/app/workspace/README.md'"))
  ∧ demo_state = demo_state.
Proof.
  split; [reflexivity|].
  apply (proj2 (handlers_error_no_change MemFS.demo_ro demo_state
                  (Some (<[ "content" := "X" ]> {[ "path" := "/app/workspace/README.md" ]}))
                  MemFS.demo_ro demo_state
                  "Error updating file: [Errno 30] Read-only file system: '/app/workspace/README.md'")).
  reflexivity.
Defined.

Lemma update_then_select_witness :
  let d : gmap string string :=
    <[ "content" := "X" ]> {[ "path" := "/app/workspace/README.md" ]} in
  let '(w1, st1, r1) := handle_update_file_content MemFS.demo demo_state (Some d) in
  r1 = Returns (Updated "/app/workspace/README.md")
  ∧ handle_select_file w1 st1 (Some {[ "path" := "/app/workspace/README.md" ]}) =
    ((MemFS.mem_write MemFS.demo "/app/workspace/README.md" "X").1,
     {| workspace_state := workspace_state demo_state;
        current_file_state := "/app/workspace/README.md";
        file_content_state := "X" |},
     Returns (Selected "/app/workspace/README.md"
                (get_file_type (MemFS.mem_write MemFS.demo "/app/workspace/README.md" "X").1
                   "/app/workspace/README.md"))).
Proof.
  intros d.
  apply (update_then_select MemFS.demo
           (MemFS.mem_write MemFS.demo "/app/workspace/README.md" "X").1
           demo_state d "/app/workspace/README.md" "X" ()); reflexivity.
Defined.

Lemma file_system_written_only_by_update_witness :
  (run_all MemFS.demo demo_state
     [OpSelectFile (Some {[ "path" := "/app/workspace/Zed.py" ]}); OpRenderEditor;
      OpScanWorkspace 2 "/app/workspace"; OpSelectFile None]).1 = MemFS.demo.
Proof.
  apply (file_system_written_only_by_update MemFS.demo demo_state). reflexivity.
Defined.

Lemma select_scanned_file_witness :
  ∃ content,
    read_file_content MemFS.demo "/app/workspace/src/app.py" = Returns content
    ∧ handle_select_file MemFS.demo demo_state
        (Some {[ "path" := "/app/workspace/src/app.py" ]}) =
      (MemFS.demo,
       {| workspace_state := workspace_state demo_state;
          current_file_state := "/app/workspace/src/app.py";
          file_content_state := content |},
       Returns (Selected "/app/workspace/src/app.py" "python")).
Proof.
  eapply (select_scanned_file MemFS.demo demo_state 8 "/app/workspace" _ _
            (mkFileNode "app.py" "/app/workspace/src/app.py" "python" None)).
  - exact demo_state_scan.
  - vm_compute. do 3 right. left.
  - by intros ?.
Defined.

Lemma home_actions_witness :
  values_at "action" (home MemFS.demo demo_state) =
    ((λ _, VStr "select_file") <$> file_nodes (workspace_state demo_state))
    ++ [VStr "update_file_content"]
  ∧ values_at "data" (home MemFS.demo demo_state) =
    ((λ n, VDict [("path", VStr (path n))]) <$> file_nodes (workspace_state demo_state))
    ++ [VDict [("path", VStr "/app/workspace/README.md")]].
Proof. exact (home_actions MemFS.demo demo_state demo_state_shape). Defined.

Lemma explorer_highlight_witness :
  let count :=
    length (filter (λ v, highlighted v = true)
              (values_at "backgroundColor" (FileExplorer_render MemFS.demo demo_state))) in
  (count ≤ 1)%nat
  ∧ ((0 < count)%nat ↔
     ∃ n, n ∈ file_nodes (workspace_state demo_state)
          ∧ path n = current_file_state demo_state).
Proof.
  eapply (explorer_highlight MemFS.demo demo_state 8 "/app/workspace");
    [exact demo_well_listed|exact demo_state_scan].
Defined.

Lemma init_shows_editor_witness :
  ∃ st,
    init 8 MemFS.demo "/app" = Some (st, ["Error scanning workspace: [Errno 13] Permission denied: '/app/workspace/private'"])
    ∧ workspace_state st = workspace_state demo_state
    ∧ current_file_state st = "/app/workspace/README.md"
    ∧ read_file_content MemFS.demo (current_file_state st) = Returns (file_content_state st)
    ∧ values_at "action" (Editor_render MemFS.demo st) = [VStr "update_file_content"].
Proof.
  eapply (init_shows_editor MemFS.demo 8 "/app"). exact demo_state_scan.
Defined.

Lemma select_then_render_witness :
  values_at "content" (StatusBar_render MemFS.demo
     {| workspace_state := workspace_state demo_state;
        current_file_state := "/app/workspace/Zed.py";
        file_content_state := "print(1)" |}) =
  [VStr "VS Code Replica"; VStr "PYTHON"].
Proof.
  apply (select_then_render MemFS.demo demo_state
           (Some {[ "path" := "/app/workspace/Zed.py" ]}) MemFS.demo _
           "/app/workspace/Zed.py" "python"); [reflexivity|done].
Defined.
